(** * Currency swap form: amount synchronisation, validation and settlement

    A shallow embedding of the currency swap form of the repository
    (problem 2): the formatters and validators, the [useTokenPrices] and
    [useSwap] hooks and the [CurrencySwapForm] component with its handlers,
    its rate effect and the [disabled] gates of its controls.

    JavaScript numbers are IEEE 754 binary64 values.  They are modelled by
    [spec_float] of the Standard Library at precision 53 and maximal
    exponent 1024, with round-to-nearest-even arithmetic, so that rounding,
    overflow to [Infinity] and [NaN] behave as in the running program.
    Strings are sequences of characters with codes below 256; white space
    among them is what the language takes for white space (the no-break
    space of code 160 included), and [toLowerCase] covers the letters of
    that range.  The price table is a plain object: besides its own
    properties it answers for the names it inherits from
    [Object.prototype]. *)

From Stdlib Require Import ZArith List String Ascii Bool Lia.
From Stdlib Require Import SpecFloat.
From stdpp Require Import gmap strings.

Import ListNotations.

(** ** Characters and decimal digits *)

Module Chars.

Local Open Scope Z_scope.

Definition isDigit (c : ascii) : bool :=
  let n := Z.of_nat (nat_of_ascii c) in (48 <=? n) && (n <=? 57).

(** White space and line terminators that [String.prototype.trim] and
    [parseFloat] skip, among the codes below 256: TAB, LF, VT, FF, CR, SP
    and the no-break space U+00A0. *)
Definition isSpace (c : ascii) : bool :=
  let n := Z.of_nat (nat_of_ascii c) in
  ((9 <=? n) && (n <=? 13)) || (n =? 32) || (n =? 160).

Definition digitChar (d : Z) : ascii := ascii_of_nat (Z.to_nat (48 + d)).

Definition digitVal (c : ascii) : Z := Z.of_nat (nat_of_ascii c) - 48.

(** Value of a string of decimal digits, most significant first. *)
Definition digitsVal (l : list ascii) : Z :=
  fold_left (fun acc c => 10 * acc + digitVal c) l 0.

Fixpoint digitsAux (fuel : nat) (n : Z) (acc : list ascii) : list ascii :=
  match fuel with
  | O => acc
  | S fuel' =>
      let acc' := digitChar (n mod 10) :: acc in
      if n / 10 =? 0 then acc' else digitsAux fuel' (n / 10) acc'
  end.

(** Decimal representation of a natural number, without leading zeros
    ("0" for zero).  A number below [2 ^ k] has at most [k] digits, so the
    fuel is never exhausted. *)
Definition digits (n : Z) : list ascii :=
  digitsAux (S (Z.to_nat (Z.log2 n))) n [].

Definition zeros (k : nat) : list ascii := repeat "0"%char k.

End Chars.

(** ** JavaScript numbers *)

Module Num.

Import Chars.
Local Open Scope Z_scope.

Definition number := spec_float.

Definition prec : Z := 53.
Definition emax : Z := 1024.

Definition NaN : number := S754_nan.
Definition Infinity : number := S754_infinity false.
Definition zero : number := S754_zero false.

Definition mul : number -> number -> number := SFmul prec emax.
Definition div : number -> number -> number := SFdiv prec emax.

(** [x < y], [x <= y] and [x > y]; all false when an operand is [NaN]. *)
Definition ltb : number -> number -> bool := SFltb.
Definition leb : number -> number -> bool := SFleb.
Definition gtb (x y : number) : bool := SFltb y x.

Definition isNaN (x : number) : bool :=
  match x with S754_nan => true | _ => false end.

Definition isFinite (x : number) : bool :=
  match x with S754_zero _ | S754_finite _ _ _ => true | _ => false end.

(** [ToBoolean]: zero (of either sign) and [NaN] are falsy. *)
Definition truthy (x : number) : bool :=
  match x with S754_zero _ | S754_nan => false | _ => true end.

(** The number nearest to an integer. *)
Definition ofZ (z : Z) : number := binary_normalize prec emax z 0 false.

(** The number nearest to [m * 10 ^ e10], the value of a decimal literal
    with digits [m]; a quotient of two integers is rounded once.  (For a
    literal of more than twenty significant digits an engine may round from
    its first twenty digits; the literals evaluated below are shorter.) *)
Definition ofDecimal (neg : bool) (m : Z) (e10 : Z) : number :=
  match m with
  | Zpos p =>
      if 0 <=? e10
      then binary_round prec emax neg (p * Z.to_pos (10 ^ e10)) 0
      else SFdiv prec emax (S754_finite neg p 0)
                           (S754_finite false (Z.to_pos (10 ^ (- e10))) 0)
  | _ => S754_zero neg
  end.

(** [Number.MAX_SAFE_INTEGER], [2 ^ 53 - 1]. *)
Definition MAX_SAFE_INTEGER : number := ofZ (2 ^ 53 - 1).

(** [Math.floor].  A finite number with a non-negative exponent is an
    integer; otherwise the mantissa is divided by [2 ^ (- e)], and a
    negative number with a remainder moves one further down. *)
Definition floor (x : number) : number :=
  match x with
  | S754_finite s m e =>
      if 0 <=? e then x
      else
        let d := 2 ^ (- e) in
        let q := Zpos m / d in
        let r := Zpos m mod d in
        if s
        then binary_normalize prec emax (- (if r =? 0 then q else q + 1)) 0 true
        else binary_normalize prec emax q 0 false
  | _ => x
  end.

(** [Object.is], the comparison React applies to effect dependencies. *)
Definition sameValue (x y : number) : bool :=
  match x, y with
  | S754_nan, S754_nan => true
  | S754_zero s, S754_zero s' => Bool.eqb s s'
  | S754_infinity s, S754_infinity s' => Bool.eqb s s'
  | S754_finite s m e, S754_finite s' m' e' =>
      Bool.eqb s s' && Pos.eqb m m' && Z.eqb e e'
  | _, _ => false
  end.

(** *** Exact comparison of a positive finite number with a decimal *)

(** [m * 2 ^ e < s * 10 ^ t] over the rationals, for positive [m], [s]. *)
Definition ratLt (m e s t : Z) : bool :=
  (m * 2 ^ (Z.max e 0) * 10 ^ (Z.max (- t) 0)
   <? s * 10 ^ (Z.max t 0) * 2 ^ (Z.max (- e) 0)).

(** [floor (m * 2 ^ e / 10 ^ t)] for positive [m]. *)
Definition ratFloorDiv (m e t : Z) : Z :=
  (m * 2 ^ (Z.max e 0) * 10 ^ (Z.max (- t) 0))
  / (10 ^ (Z.max t 0) * 2 ^ (Z.max (- e) 0)).

(** *** Number::toString, radix 10 *)

(** The decimal exponent [n] with [10 ^ (n - 1) <= m * 2 ^ e < 10 ^ n]:
    a first estimate from the binary magnitude, then corrected. *)
Fixpoint adjustUp (fuel : nat) (m e n : Z) : Z :=
  match fuel with
  | O => n
  | S fuel' => if ratLt m e 1 n then n else adjustUp fuel' m e (n + 1)
  end.

Fixpoint adjustDown (fuel : nat) (m e n : Z) : Z :=
  match fuel with
  | O => n
  | S fuel' => if ratLt m e 1 (n - 1) then adjustDown fuel' m e (n - 1) else n
  end.

Definition decimalExponent (m e : Z) : Z :=
  let mag := Z.log2 m + e in
  let guess := (mag * 30103) / 100000 in
  adjustUp 4 m e (adjustDown 4 m e (guess + 2)).

(** The candidates with [k] digits are the two [k]-digit decimals around
    the number; one qualifies when it reads back as the same number.  The
    upper candidate may be the power [10 ^ k], which is the digit 1 with the
    next decimal exponent. *)
Definition shortestAt (x : number) (m e n k : Z) : option (Z * Z) :=
  let lo := ratFloorDiv m e (n - k) in
  let hi := lo + 1 in
  let hi' := if hi =? 10 ^ k then (10 ^ (k - 1), n + 1) else (hi, n) in
  let ok (c : Z * Z) := sameValue (ofDecimal false (fst c) (snd c - k)) x in
  match ok (lo, n), ok hi' with
  | true, false => Some (lo, n)
  | false, true => Some hi'
  | false, false => None
  | true, true =>
      (* both read back: the closer one, the even one on a tie *)
      let one := 10 ^ (Z.max (n - k) 0) * 2 ^ (Z.max (- e) 0) in
      let dlo := 2 * (m * 2 ^ (Z.max e 0) * 10 ^ (Z.max (- (n - k)) 0))
                 - 2 * lo * one in
      if dlo <? one then Some (lo, n)
      else if one <? dlo then Some hi'
      else if Z.even lo then Some (lo, n) else Some hi'
  end.

Fixpoint shortestFrom (fuel : nat) (x : number) (m e n k : Z) : Z * Z * Z :=
  match fuel with
  | O => (ratFloorDiv m e (n - k), k, n)
  | S fuel' =>
      match shortestAt x m e n k with
      | Some (s, n') => (s, k, n')
      | None => shortestFrom fuel' x m e n (k + 1)
      end
  end.

(** Digits [s], their count [k] and the decimal exponent [n] of a positive
    finite number: the shortest decimal that reads back as the number
    (seventeen digits always do). *)
Definition shortest (m : positive) (e : Z) : Z * Z * Z :=
  shortestFrom 17 (S754_finite false m e) (Zpos m) e
               (decimalExponent (Zpos m) e) 1.

Definition toStringPos (m : positive) (e : Z) : list ascii :=
  let '(s, k, n) := shortest m e in
  let ds := digits s in
  if (k <=? n) && (n <=? 21) then
    ds ++ zeros (Z.to_nat (n - k))
  else if (0 <? n) && (n <=? 21) then
    firstn (Z.to_nat n) ds ++ "."%char :: skipn (Z.to_nat n) ds
  else if (-6 <? n) && (n <=? 0) then
    "0"%char :: "."%char :: zeros (Z.to_nat (- n)) ++ ds
  else
    let ex := n - 1 in
    let sign := if ex <? 0 then "-"%char else "+"%char in
    let tail := "e"%char :: sign :: digits (Z.abs ex) in
    match ds with
    | [] => tail
    | d :: rest =>
        if k =? 1 then d :: tail else d :: "."%char :: rest ++ tail
    end.

Definition toStringChars (x : number) : list ascii :=
  match x with
  | S754_nan => list_ascii_of_string "NaN"
  | S754_zero _ => list_ascii_of_string "0"
  | S754_infinity s =>
      (if s then ["-"%char] else []) ++ list_ascii_of_string "Infinity"
  | S754_finite s m e =>
      (if s then ["-"%char] else []) ++ toStringPos m e
  end.

Definition toString (x : number) : string :=
  string_of_list_ascii (toStringChars x).

(** *** Number.prototype.toFixed *)

(** The integer [n] for which [n / 10 ^ f - m * 2 ^ e] is closest to zero,
    the larger one when two are equally close. *)
Definition fixedInt (m e : Z) (f : nat) : Z :=
  let p := m * 10 ^ Z.of_nat f in
  if 0 <=? e then p * 2 ^ e
  else (2 * p + 2 ^ (- e)) / (2 * 2 ^ (- e)).

(** Digits of [n] with a decimal point before the last [f] of them, padded
    with zeros on the left to at least [f + 1] digits. *)
Definition fixedChars (n : Z) (f : nat) : list ascii :=
  let ds := digits n in
  let k := length ds in
  let ds' := if (k <=? f)%nat then zeros (f + 1 - k) ++ ds else ds in
  let a := (length ds' - f)%nat in
  match f with
  | O => ds'
  | _ => firstn a ds' ++ "."%char :: skipn a ds'
  end.

(** [x.toFixed(f)]: a number that is not finite is rendered as by
    [toString]; so is a magnitude of [10 ^ 21] or more, after the sign; any
    other one in fixed notation with [f] decimals. *)
Definition toFixedChars (x : number) (f : nat) : list ascii :=
  match x with
  | S754_finite s m e =>
      (if s then ["-"%char] else []) ++
      (if negb (ratLt (Zpos m) e 1 21)
       then toStringPos m e
       else fixedChars (fixedInt (Zpos m) e f) f)
  | S754_zero _ => fixedChars 0 f
  | _ => toStringChars x
  end.

Definition toFixed (x : number) (f : nat) : string :=
  string_of_list_ascii (toFixedChars x f).

(** The numbers that [toFixed] renders in fixed notation: the finite ones
    of magnitude below [10 ^ 21]. *)
Definition fixedNotation (x : number) : bool :=
  match x with
  | S754_finite _ m e => ratLt (Zpos m) e 1 21
  | S754_zero _ => true
  | _ => false
  end.

(** The sign bit is clear; vacuous for [NaN]. *)
Definition signClear (x : number) : Prop :=
  match x with
  | S754_zero s | S754_infinity s | S754_finite s _ _ => s = false
  | S754_nan => True
  end.

(** [x >= y]; false when an operand is [NaN]. *)
Definition geb (x y : number) : bool := SFleb y x.

End Num.

(** ** Strings: the amount pattern, [trim] and [parseFloat] *)

Module Str.

Import Chars.
Local Open Scope Z_scope.

Fixpoint dropWhile (p : ascii -> bool) (l : list ascii) : list ascii :=
  match l with
  | [] => []
  | c :: r => if p c then dropWhile p r else l
  end.

Fixpoint takeWhile (p : ascii -> bool) (l : list ascii) : list ascii :=
  match l with
  | [] => []
  | c :: r => if p c then c :: takeWhile p r else []
  end.

(** [/^\d*\.?\d*$/.test(s)]: digits, at most one point, digits, and
    nothing else up to the end of the string. *)
Definition amountPatternChars (l : list ascii) : bool :=
  let rest := dropWhile isDigit l in
  let rest' := match rest with
               | c :: r => if Ascii.eqb c "." then r else rest
               | [] => rest
               end in
  match dropWhile isDigit rest' with
  | [] => true
  | _ :: _ => false
  end.

Definition amountPattern (s : string) : bool :=
  amountPatternChars (list_ascii_of_string s).

(** Digits, a point and exactly six digits. *)
Definition sixDecimals (s : string) : Prop :=
  exists int frac : list ascii,
    list_ascii_of_string s = int ++ "."%char :: frac
    /\ int <> [] /\ length frac = 6%nat
    /\ Forall (fun c => isDigit c = true) int
    /\ Forall (fun c => isDigit c = true) frac.

(** [s.trim()] *)
Definition trim (s : string) : string :=
  string_of_list_ascii
    (rev (dropWhile isSpace (rev (dropWhile isSpace (list_ascii_of_string s))))).

(** [!s] for a string: only the empty string is falsy. *)
Definition isEmpty (s : string) : bool :=
  match s with EmptyString => true | String _ _ => false end.

Definition signOf (l : list ascii) : bool * list ascii :=
  match l with
  | c :: r =>
      if Ascii.eqb c "-" then (true, r)
      else if Ascii.eqb c "+" then (false, r)
      else (false, l)
  | [] => (false, l)
  end.

Fixpoint startsWith (p l : list ascii) : bool :=
  match p, l with
  | [], _ => true
  | a :: p', b :: l' => Ascii.eqb a b && startsWith p' l'
  | _ :: _, [] => false
  end.

(** The exponent part [e], [e+] or [e-] followed by digits; without digits
    after it the [e] does not belong to the number. *)
Definition exponentOf (l : list ascii) : Z :=
  match l with
  | c :: r =>
      if Ascii.eqb c "e" || Ascii.eqb c "E" then
        let '(eneg, r1) := signOf r in
        match takeWhile isDigit r1 with
        | [] => 0
        | ed => if eneg then - digitsVal ed else digitsVal ed
        end
      else 0
  | [] => 0
  end.

(** [parseFloat(s)]: leading white space is skipped, then the longest
    prefix that is a decimal literal is read; [NaN] when there is none. *)
Definition parseFloat (s : string) : Num.number :=
  let l := dropWhile isSpace (list_ascii_of_string s) in
  let '(neg, l1) := signOf l in
  if startsWith (list_ascii_of_string "Infinity") l1 then S754_infinity neg
  else
    let ip := takeWhile isDigit l1 in
    let l2 := dropWhile isDigit l1 in
    let hasPoint := match l2 with
                    | c :: _ => Ascii.eqb c "."
                    | [] => false
                    end in
    let fp := if hasPoint then takeWhile isDigit (tl l2) else [] in
    let l3 := if hasPoint then dropWhile isDigit (tl l2) else l2 in
    match ip ++ fp with
    | [] => Num.NaN
    | ds => Num.ofDecimal neg (digitsVal ds)
                          (exponentOf l3 - Z.of_nat (length fp))
    end.

End Str.

(** ** Plain objects used as maps *)

Module Obj.

(** An object that starts as [{}] and is filled by assignments
    [acc[k] = n] of numbers: its own properties are a finite map from names
    to numbers, and its prototype is [Object.prototype]. *)
Abbreviation t := (gmap string Num.number).

(** The names that every such object inherits from [Object.prototype]. *)
Definition prototypeNames : list string :=
  ["constructor"; "hasOwnProperty"; "isPrototypeOf"; "propertyIsEnumerable";
   "toLocaleString"; "toString"; "valueOf"; "__proto__";
   "__defineGetter__"; "__defineSetter__"; "__lookupGetter__";
   "__lookupSetter__"]%string.

Definition inherited (k : string) : bool :=
  existsb (String.eqb k) prototypeNames.

(** What [o[k]] evaluates to: [undefined], an own number, or an inherited
    value, which is a function of [Object.prototype] or, for [__proto__],
    that prototype itself. *)
Inductive Value :=
| undefined
| num (n : Num.number)
| object.

(** [o[k]]: an own property comes before an inherited one. *)
Definition get (o : t) (k : string) : Value :=
  match o !! k with
  | Some n => num n
  | None => if inherited k then object else undefined
  end.

(** [o[k] = n] for a number [n].  An own property is overwritten.  A
    name without an own property gets one, except [__proto__]: that name
    is an accessor of [Object.prototype], whose setter ignores a value that
    is neither an object nor [null], so no property is created. *)
Definition set (k : string) (n : Num.number) (o : t) : t :=
  match o !! k with
  | Some _ => <[k := n]> o
  | None => if String.eqb k "__proto__" then o else <[k := n]> o
  end.

(** [k in o]: own or inherited. *)
Definition has (k : string) (o : t) : bool :=
  match o !! k with
  | Some _ => true
  | None => inherited k
  end.

(** [ToBoolean]: [undefined] is falsy, a function or object is truthy. *)
Definition truthy (v : Value) : bool :=
  match v with
  | undefined => false
  | num n => Num.truthy n
  | object => true
  end.

(** [ToNumber], which the division applies to its operands: [undefined]
    gives [NaN], and so does a function or [Object.prototype], whose string
    form is no numeric literal. *)
Definition toNumber (v : Value) : Num.number :=
  match v with
  | num n => n
  | undefined | object => Num.NaN
  end.

End Obj.

(** ** types/token.types.ts *)

Module Types.

Record Token := {
  currency : string;
  date : option string;
  price : option Num.number;
  iconUrl : option string
}.

(** [TokenPrice], a plain object used as a map from currency to price. *)
Abbreviation TokenPrice := Obj.t.

Record SwapFormData := {
  fromToken : string;
  toToken : string;
  fromAmount : string;
  toAmount : string
}.

Inductive Status := pending | completed | failed.

Module Tx.
Record SwapTransaction := {
  id : string;
  fromToken : string;
  toToken : string;
  fromAmount : Num.number;
  toAmount : Num.number;
  exchangeRate : Num.number;
  timestamp : Z;
  status : Status
}.
End Tx.

Inductive ErrorField := fromAmountField | toAmountField | general.

Record ValidationError := {
  field : ErrorField;
  message : string
}.

End Types.

(** ** utils/formatters.ts *)

Module Formatters.

(** [parseNumber]: [parseFloat], with [NaN] replaced by 0. *)
Definition parseNumber (value : string) : Num.number :=
  let parsed := Str.parseFloat value in
  if Num.isNaN parsed then Num.zero else parsed.

(** [Math.pow(10, decimals)] *)
Definition multiplier (decimals : nat) : Num.number :=
  Num.ofZ (10 ^ Z.of_nat decimals).

(** The local [truncated] of [truncateDecimals]:
    [Math.floor(value * multiplier) / multiplier]. *)
Definition truncated (value : Num.number) (decimals : nat) : Num.number :=
  Num.div (Num.floor (Num.mul value (multiplier decimals)))
          (multiplier decimals).

(** [truncateDecimals(value, decimals)] *)
Definition truncateDecimals (value : Num.number) (decimals : nat) : string :=
  Num.toFixed (truncated value decimals) decimals.

(** [isValidNumber] *)
Definition isValidNumber (value : string) : bool :=
  Str.amountPattern value && negb (Str.isEmpty value).

(** [formatCompact] *)
Definition formatCompact (value : Num.number) : string :=
  if Num.geb value (Num.ofZ 1000000000) then
    Num.toFixed (Num.div value (Num.ofZ 1000000000)) 2 +:+ "B"
  else if Num.geb value (Num.ofZ 1000000) then
    Num.toFixed (Num.div value (Num.ofZ 1000000)) 2 +:+ "M"
  else if Num.geb value (Num.ofZ 1000) then
    Num.toFixed (Num.div value (Num.ofZ 1000)) 2 +:+ "K"
  else Num.toFixed value 2.

End Formatters.

(** ** utils/validators.ts *)

Module Validators.

Import Types.

(** [validateSwapAmount]; [None] is the source's [null]. *)
Definition validateSwapAmount (amount : string) (fld : ErrorField)
  : option ValidationError :=
  if Str.isEmpty amount || Str.isEmpty (Str.trim amount) then
    Some {| field := fld; message := "Amount is required" |}
  else if negb (Str.amountPattern amount) then
    Some {| field := fld; message := "Please enter a valid number" |}
  else
    let numValue := Str.parseFloat amount in
    if Num.isNaN numValue || Num.leb numValue Num.zero then
      Some {| field := fld; message := "Amount must be greater than 0" |}
    else if Num.gtb numValue Num.MAX_SAFE_INTEGER then
      Some {| field := fld; message := "Amount is too large" |}
    else None.

(** [validateTokensDifferent] *)
Definition validateTokensDifferent (fromToken toToken : string)
  : option ValidationError :=
  if String.eqb fromToken toToken then
    Some {| field := general; message := "Cannot swap the same token" |}
  else None.

End Validators.

(** ** utils/tokenUtils.ts *)

Module TokenUtils.

Definition TOKEN_ICON_BASE_URL : string :=
  "https://raw.githubusercontent.com/Switcheo/token-icons/main/tokenIcons".

Definition upperChar (c : ascii) : ascii :=
  let n := nat_of_ascii c in
  if (97 <=? n)%nat && (n <=? 122)%nat then ascii_of_nat (n - 32) else c.

(** [currency.toUpperCase()], for the letters a to z.  (Other small
    letters below code 256 have capitals outside that range or of two
    characters; the icon URL, the only use, enters no property.) *)
Definition toUpperCase (s : string) : string :=
  string_of_list_ascii (map upperChar (list_ascii_of_string s)).

Definition getTokenIconUrl (currency : string) : string :=
  TOKEN_ICON_BASE_URL +:+ "/" +:+ toUpperCase currency +:+ ".svg".

(** [hasTokenPrice]: [currency in prices]. *)
Definition hasTokenPrice (currency : string) (prices : Types.TokenPrice) : bool :=
  Obj.has currency prices.

(** [getExchangeRate] of the token utilities: it looks at the presence of
    the two names only and divides whatever it finds under them; [None] is
    the source's [null]. *)
Definition getExchangeRate (fromToken toToken : string)
                           (prices : Types.TokenPrice) : option Num.number :=
  if negb (hasTokenPrice fromToken prices) || negb (hasTokenPrice toToken prices)
  then None
  else Some (Num.div (Obj.toNumber (Obj.get prices fromToken))
                     (Obj.toNumber (Obj.get prices toToken))).

End TokenUtils.

(** ** hooks/useTokenPrices.ts *)

Module TokenPrices.

(** An entry of the price feed.  The declared type gives every entry a
    price, but the hook filters on [price != null], so a missing or null
    price is [None]. *)
Record TokenApiResponse := {
  currency : string;
  price : option Num.number;
  date : string
}.

(** The state of the hook. *)
Record State := {
  tokens : list Types.Token;
  prices : Types.TokenPrice;
  loading : bool;
  error : option string
}.

Definition initial : State :=
  {| tokens := []; prices := ∅; loading := true; error := None |}.

(** What the awaited part of [fetchPrices] yields: the parsed feed, or an
    exception (network failure, a response that is not ok, a body that does
    not parse). *)
Inductive FetchResult :=
| FetchOk (data : list TokenApiResponse)
| FetchFailed.

Definition hasPrice (token : TokenApiResponse) : bool :=
  match price token with Some _ => true | None => false end.

(** [data.filter(token => token.price != null)] *)
Definition validTokens (data : list TokenApiResponse) : list TokenApiResponse :=
  filter (fun token => hasPrice token = true) data.

(** [validTokens.reduce((acc, token) => { acc[token.currency] = token.price;
    return acc }, {})] *)
Definition addPrice (acc : Types.TokenPrice) (token : TokenApiResponse)
  : Types.TokenPrice :=
  match price token with
  | Some p => Obj.set (currency token) p acc
  | None => acc
  end.

Definition pricesMap (valid : list TokenApiResponse) : Types.TokenPrice :=
  fold_left addPrice valid ∅.

Definition tokensWithData (valid : list TokenApiResponse) : list Types.Token :=
  map (fun token =>
         {| Types.currency := currency token;
            Types.price := price token;
            Types.date := Some (date token);
            Types.iconUrl := Some (TokenUtils.getTokenIconUrl (currency token)) |})
      valid.

(** [fetchPrices] up to its first [await]: [setLoading(true)]. *)
Definition fetchStart (st : State) : State :=
  {| tokens := tokens st; prices := prices st; loading := true;
     error := error st |}.

(** [fetchPrices] after the [await]: the [try] body on a parsed feed, the
    [catch] body on an exception, and [finally] in both cases. *)
Definition fetchSettle (r : FetchResult) (st : State) : State :=
  match r with
  | FetchOk data =>
      let valid := validTokens data in
      {| tokens := tokensWithData valid;
         prices := pricesMap valid;
         loading := false;
         error := None |}
  | FetchFailed =>
      {| tokens := [];
         prices := ∅;
         loading := false;
         error := Some "Failed to load token prices. Please try again later." |}
  end.

(** [getExchangeRate] of the hook; [None] is the source's [null]. *)
Definition getExchangeRate (st : State) (fromCurrency toCurrency : string)
  : option Num.number :=
  if Str.isEmpty fromCurrency || Str.isEmpty toCurrency
     || negb (Obj.truthy (Obj.get (prices st) fromCurrency))
     || negb (Obj.truthy (Obj.get (prices st) toCurrency))
  then None
  else Some (Num.div (Obj.toNumber (Obj.get (prices st) fromCurrency))
                     (Obj.toNumber (Obj.get (prices st) toCurrency))).

(** The own properties of the price table are named by listed tokens, and
    every listed token names one, unless it is called [__proto__]; that
    name is never an own property. *)
Definition listedPriced (st : State) : Prop :=
  (forall c : string,
      is_Some (prices st !! c) -> In c (map Types.currency (tokens st)))
  /\ (forall c : string,
        In c (map Types.currency (tokens st)) -> c <> "__proto__"%string ->
        is_Some (prices st !! c))
  /\ prices st !! "__proto__"%string = None.

End TokenPrices.

(** ** hooks/useSwap.ts *)

Module Swap.

Import Types.

(** The state of the hook. *)
Record State := {
  isSwapping : bool;
  lastTransaction : option Tx.SwapTransaction;
  error : option string
}.

Definition initial : State :=
  {| isSwapping := false; lastTransaction := None; error := None |}.

(** What the environment supplies to one settlement: the value of the
    first [Math.random()], [Date.now()], the base-36 suffix made from the
    second [Math.random()], and the time of [new Date()]. *)
Record Env := {
  random : Num.number;
  now : Z;
  suffix : string;
  date : Z
}.

(** [executeSwap] up to its first [await]. *)
Definition start (st : State) : State :=
  {| isSwapping := true; lastTransaction := lastTransaction st;
     error := None |}.

(** [Math.random() < 0.1] *)
Definition fails (env : Env) : bool :=
  Num.ltb (random env) (Num.ofDecimal false 1 (-1)).

Definition transactionOf (formData : SwapFormData) (exchangeRate : Num.number)
                         (env : Env) : Tx.SwapTransaction :=
  {| Tx.id := "swap_" +:+ string_of_list_ascii (Chars.digits (now env))
                +:+ "_" +:+ suffix env;
     Tx.fromToken := fromToken formData;
     Tx.toToken := toToken formData;
     Tx.fromAmount := Str.parseFloat (fromAmount formData);
     Tx.toAmount := Str.parseFloat (toAmount formData);
     Tx.exchangeRate := exchangeRate;
     Tx.timestamp := date env;
     Tx.status := completed |}.

(** [executeSwap] after the delay: the promise is fulfilled with the
    transaction, or rejected ([None]); [finally] clears [isSwapping]. *)
Definition settle (formData : SwapFormData) (exchangeRate : Num.number)
                  (env : Env) (st : State)
  : option Tx.SwapTransaction * State :=
  if fails env then
    (None,
     {| isSwapping := false; lastTransaction := lastTransaction st;
        error := Some "Transaction failed. Please try again." |})
  else
    let transaction := transactionOf formData exchangeRate env in
    (Some transaction,
     {| isSwapping := false; lastTransaction := Some transaction;
        error := error st |}).

End Swap.

(** ** components/TokenSelector.tsx *)

Module TokenSelector.

(** The capital letters below code 256 are A to Z and the codes 192 to 222
    without the multiplication sign 215; each has its small letter 32
    further up. *)
Definition lowerChar (c : ascii) : ascii :=
  let n := nat_of_ascii c in
  if ((65 <=? n)%nat && (n <=? 90)%nat)
     || ((192 <=? n)%nat && (n <=? 222)%nat && negb (n =? 215)%nat)
  then ascii_of_nat (n + 32) else c.

(** [s.toLowerCase()] *)
Definition toLowerCase (s : string) : list ascii :=
  map lowerChar (list_ascii_of_string s).

(** [s.includes(search)]: [search] occurs in [s] at some position. *)
Fixpoint includes (l search : list ascii) : bool :=
  Str.startsWith search l
  || match l with
     | [] => false
     | _ :: r => includes r search
     end.

(** [filteredTokens]: the tokens other than [exclude] whose currency
    contains the search term, letter case apart. *)
Definition filteredTokens (tokens : list Types.Token) (exclude searchTerm : string)
  : list Types.Token :=
  filter (fun token =>
            negb (String.eqb (Types.currency token) exclude)
            && includes (toLowerCase (Types.currency token))
                        (toLowerCase searchTerm) = true)
         tokens.

End TokenSelector.

(** ** components/CurrencySwapForm.tsx *)

Module Form.

Import Types.

(** The value of [lastUpdatedField]. *)
Inductive Field := from | to.

(** The component's own state ([useState]). *)
Record State := {
  formData : SwapFormData;
  error : string;
  lastUpdatedField : Field;
  showSuccess : bool
}.

Definition initial : State :=
  {| formData := {| fromToken := "ETH"; toToken := "USDC";
                    fromAmount := ""; toAmount := "" |};
     error := "";
     lastUpdatedField := from;
     showSuccess := false |}.

(** The memoised [exchangeRate]: a missing price is [undefined], which is
    falsy like a zero price; a token named like a property of
    [Object.prototype] finds that property when the table has no price for
    it. *)
Definition exchangeRate (prices : TokenPrice) (fd : SwapFormData) : Num.number :=
  let fromPrice := Obj.get prices (fromToken fd) in
  let toPrice := Obj.get prices (toToken fd) in
  if Obj.truthy fromPrice && Obj.truthy toPrice
  then Num.div (Obj.toNumber fromPrice) (Obj.toNumber toPrice)
  else Num.zero.

(** [converted > 0 ? truncateDecimals(converted, 6) : ''], the expression
    that both amount handlers and both branches of the rate effect write
    into the other field. *)
Definition counterpart (converted : Num.number) : string :=
  if Num.gtb converted Num.zero
  then Formatters.truncateDecimals converted 6
  else "".

Definition setError (msg : string) (st : State) : State :=
  {| formData := formData st; error := msg;
     lastUpdatedField := lastUpdatedField st; showSuccess := showSuccess st |}.

Definition setFormData (fd : SwapFormData) (st : State) : State :=
  {| formData := fd; error := error st;
     lastUpdatedField := lastUpdatedField st; showSuccess := showSuccess st |}.

Definition rejects (value : string) : bool :=
  negb (Str.isEmpty value) && negb (Str.amountPattern value).

(** [handleFromAmountChange], called with the [exchangeRate] of the render
    the handler belongs to. *)
Definition handleFromAmountChange (value : string) (rate : Num.number)
                                  (st : State) : State :=
  if rejects value then setError "Please enter a valid number" st
  else
    let numValue := Formatters.parseNumber value in
    let converted := Num.mul numValue rate in
    {| formData := {| fromToken := fromToken (formData st);
                      toToken := toToken (formData st);
                      fromAmount := value;
                      toAmount := counterpart converted |};
       error := "";
       lastUpdatedField := from;
       showSuccess := showSuccess st |}.

(** [handleToAmountChange] *)
Definition handleToAmountChange (value : string) (rate : Num.number)
                                (st : State) : State :=
  if rejects value then setError "Please enter a valid number" st
  else
    let numValue := Formatters.parseNumber value in
    let converted :=
      if Num.gtb rate Num.zero then Num.div numValue rate else Num.zero in
    {| formData := {| fromToken := fromToken (formData st);
                      toToken := toToken (formData st);
                      toAmount := value;
                      fromAmount := counterpart converted |};
       error := "";
       lastUpdatedField := to;
       showSuccess := showSuccess st |}.

(** [handleFromTokenChange] and [handleToTokenChange] *)
Definition handleFromTokenChange (currency : string) (st : State) : State :=
  setFormData {| fromToken := currency;
                 toToken := toToken (formData st);
                 fromAmount := fromAmount (formData st);
                 toAmount := toAmount (formData st) |} st.

Definition handleToTokenChange (currency : string) (st : State) : State :=
  setFormData {| fromToken := fromToken (formData st);
                 toToken := currency;
                 fromAmount := fromAmount (formData st);
                 toAmount := toAmount (formData st) |} st.

(** [handleSwapTokens] *)
Definition handleSwapTokens (st : State) : State :=
  {| formData := {| fromToken := toToken (formData st);
                    toToken := fromToken (formData st);
                    fromAmount := toAmount (formData st);
                    toAmount := fromAmount (formData st) |};
     error := error st;
     lastUpdatedField := match lastUpdatedField st with
                         | from => to
                         | to => from
                         end;
     showSuccess := showSuccess st |}.

(** The effect on [exchangeRate].  It reads [lastUpdatedField] and
    [formData] of the render it belongs to and queues a functional update
    [prev => ({...prev, ...})]; [None] when it queues nothing. *)
Definition rateEffectUpdate (rate : Num.number) (st : State)
  : option (SwapFormData -> SwapFormData) :=
  if Num.gtb rate Num.zero then
    match lastUpdatedField st with
    | from =>
        if negb (Str.isEmpty (fromAmount (formData st))) then
          let numValue := Formatters.parseNumber (fromAmount (formData st)) in
          let converted := Num.mul numValue rate in
          Some (fun prev =>
                  {| fromToken := fromToken prev; toToken := toToken prev;
                     fromAmount := fromAmount prev;
                     toAmount := counterpart converted |})
        else None
    | to =>
        if negb (Str.isEmpty (toAmount (formData st))) then
          let numValue := Formatters.parseNumber (toAmount (formData st)) in
          let converted := Num.div numValue rate in
          Some (fun prev =>
                  {| fromToken := fromToken prev; toToken := toToken prev;
                     toAmount := toAmount prev;
                     fromAmount := counterpart converted |})
        else None
    end
  else None.

(** A queued functional update applied to the state it finds. *)
Definition applyUpdate (u : option (SwapFormData -> SwapFormData))
                       (prev : SwapFormData) : SwapFormData :=
  match u with
  | Some f => f prev
  | None => prev
  end.

(** The effect run right after the render it belongs to. *)
Definition rateEffect (rate : Num.number) (st : State) : State :=
  setFormData (applyUpdate (rateEffectUpdate rate st) (formData st)) st.

(** [handleMaxAmount]: [mockBalance.toString()] with [mockBalance = 10]. *)
Definition mockBalance : Num.number := Num.ofZ 10.

Definition handleMaxAmount (rate : Num.number) (st : State) : State :=
  handleFromAmountChange (Num.toString mockBalance) rate st.

(** The amount of a field, the other field and the handler of a field;
    the conversion that the handlers and the effect apply for a field. *)
Definition amountOf (f : Field) (fd : SwapFormData) : string :=
  match f with
  | from => fromAmount fd
  | to => toAmount fd
  end.

Definition other (f : Field) : Field :=
  match f with
  | from => to
  | to => from
  end.

Definition handleAmountChange (f : Field) : string -> Num.number -> State -> State :=
  match f with
  | from => handleFromAmountChange
  | to => handleToAmountChange
  end.


End Form.

(** ** The mounted component with its two hooks *)

Module App.

Import Types.

(** An [executeSwap] promise that has not settled yet, with what the
    [handleSubmit] that awaits it closed over. *)
Record Pending := {
  submitted : SwapFormData;
  rate : Num.number
}.

Record State := {
  form : Form.State;
  store : TokenPrices.State;
  swap : Swap.State;
  inFlight : list Pending
}.

Definition initial : State :=
  {| form := Form.initial; store := TokenPrices.initial;
     swap := Swap.initial; inFlight := [] |}.

Definition exchangeRate (app : State) : Num.number :=
  Form.exchangeRate (TokenPrices.prices (store app)) (Form.formData (form app)).

Definition withForm (f : Form.State) (app : State) : State :=
  {| form := f; store := store app; swap := swap app;
     inFlight := inFlight app |}.

(** [handleSubmit] up to its [await]: the two validations, then
    [setError('')] and the call of [executeSwap], which runs to its own
    first [await]. *)
Definition handleSubmit (app : State) : State :=
  let formData := Form.formData (form app) in
  match Validators.validateSwapAmount (fromAmount formData) fromAmountField with
  | Some amountValidation =>
      withForm (Form.setError (message amountValidation) (form app)) app
  | None =>
      match Validators.validateTokensDifferent (fromToken formData)
                                               (toToken formData) with
      | Some tokenValidation =>
          withForm (Form.setError (message tokenValidation) (form app)) app
      | None =>
          {| form := Form.setError "" (form app);
             store := store app;
             swap := Swap.start (swap app);
             inFlight := inFlight app
                         ++ [{| submitted := formData;
                                rate := exchangeRate app |}] |}
      end
  end.

(** The oldest pending [executeSwap] settles and the [handleSubmit] that
    awaits it resumes: on fulfilment it shows the success message and
    resets the amounts of the form data it closed over; on rejection its
    [catch] does nothing. *)
Definition settle (env : Swap.Env) (app : State) : State :=
  match inFlight app with
  | [] => app
  | p :: rest =>
      match Swap.settle (submitted p) (rate p) env (swap app) with
      | (Some transaction, sw) =>
          {| form := {| Form.formData :=
                          {| fromToken := fromToken (submitted p);
                             toToken := toToken (submitted p);
                             fromAmount := "";
                             toAmount := "" |};
                        Form.error := Form.error (form app);
                        Form.lastUpdatedField := Form.lastUpdatedField (form app);
                        Form.showSuccess := true |};
             store := store app; swap := sw; inFlight := rest |}
      | (None, sw) =>
          {| form := form app; store := store app; swap := sw;
             inFlight := rest |}
      end
  end.

(** *** The [disabled] attributes and the loading screen *)

(** While [pricesLoading] holds the component renders the loading screen
    only, so no control of the form can be used. *)
Definition formShown (app : State) : bool :=
  negb (TokenPrices.loading (store app)).

(** [disabled={isSwapping}] of the two inputs and the swap button.  A
    selector passes its [disabled] to the button that opens its dropdown
    only. *)
Definition controlsEnabled (app : State) : bool :=
  formShown app && negb (Swap.isSwapping (swap app)).

(** The [disabled] attribute of the submit button. *)
Definition submitDisabled (app : State) : bool :=
  Swap.isSwapping (swap app)
  || Str.isEmpty (fromAmount (Form.formData (form app)))
  || Num.leb (Formatters.parseNumber (fromAmount (Form.formData (form app))))
             Num.zero
  || negb (Num.truthy (exchangeRate app)).

(** The rows of a dropdown are the currencies of [tokens] other than
    [exclude] (fewer with a search term). *)
Definition offered (app : State) (currency exclude : string) : bool :=
  existsb (String.eqb currency)
          (map Types.currency (TokenPrices.tokens (store app)))
  && negb (String.eqb currency exclude).

(** *** Events *)

Inductive Event :=
| ChangeFromAmount (value : string)
| ChangeToAmount (value : string)
| SelectFromToken (currency : string)
| SelectToToken (currency : string)
| ClickSwapButton
| ClickMax
| ClickSubmit
| FetchStarted
| FetchSettled (r : TokenPrices.FetchResult)
| SwapSettled (env : Swap.Env)
| SuccessTimeout.

(** The handler of an event, behind the gate of its control.  The row of
    a dropdown is a button without a [disabled] attribute: it can be
    clicked whenever the form is shown and the row exists, also while a
    swap is in flight when the dropdown was open before.  Whether a
    dropdown is open is state of the selector that is left out here, so a
    click on a row is admitted in every state that can show the row. *)
Definition handle (ev : Event) (app : State) : State :=
  match ev with
  | ChangeFromAmount value =>
      if controlsEnabled app
      then withForm (Form.handleFromAmountChange value (exchangeRate app) (form app)) app
      else app
  | ChangeToAmount value =>
      if controlsEnabled app
      then withForm (Form.handleToAmountChange value (exchangeRate app) (form app)) app
      else app
  | SelectFromToken currency =>
      if formShown app
         && offered app currency (toToken (Form.formData (form app)))
      then withForm (Form.handleFromTokenChange currency (form app)) app
      else app
  | SelectToToken currency =>
      if formShown app
         && offered app currency (fromToken (Form.formData (form app)))
      then withForm (Form.handleToTokenChange currency (form app)) app
      else app
  | ClickSwapButton =>
      if controlsEnabled app
      then withForm (Form.handleSwapTokens (form app)) app
      else app
  | ClickMax =>
      if formShown app
      then withForm (Form.handleMaxAmount (exchangeRate app) (form app)) app
      else app
  | ClickSubmit =>
      if formShown app && negb (submitDisabled app)
      then handleSubmit app
      else app
  | FetchStarted =>
      {| form := form app; store := TokenPrices.fetchStart (store app);
         swap := swap app; inFlight := inFlight app |}
  | FetchSettled r =>
      {| form := form app; store := TokenPrices.fetchSettle r (store app);
         swap := swap app; inFlight := inFlight app |}
  | SwapSettled env => settle env app
  | SuccessTimeout =>
      withForm {| Form.formData := Form.formData (form app);
                  Form.error := Form.error (form app);
                  Form.lastUpdatedField := Form.lastUpdatedField (form app);
                  Form.showSuccess := false |} app
  end.

(** The render after an event: when [exchangeRate] is not the same value
    as in the previous render, the rate effect runs on the new state.  In
    the runs below the update that the effect queues is applied at once,
    to the state the effect has read; what the update does to form data
    that an event has changed in between is a matter of
    [Form.rateEffectUpdate] alone. *)
Definition afterRender (before after : State) : State :=
  if Num.sameValue (exchangeRate before) (exchangeRate after) then after
  else withForm (Form.rateEffect (exchangeRate after) (form after)) after.

Definition dispatch (ev : Event) (app : State) : State :=
  afterRender app (handle ev app).

(** The state after a sequence of events, from the mounted component. *)
Definition run (trace : list Event) : State :=
  fold_left (fun app ev => dispatch ev app) trace initial.





(** What holds of the swaps in flight in every state the component
    reaches: [isSwapping] tells whether one is in flight, at most one is,
    and a recorded transaction is completed. *)
Definition consistent (app : State) : Prop :=
  Swap.isSwapping (swap app) = negb (Nat.eqb (length (inFlight app)) 0)
  /\ (length (inFlight app) <= 1)%nat
  /\ (forall tx, Swap.lastTransaction (swap app) = Some tx ->
        Tx.status tx = completed).

(** The amount of the field edited last is empty or matches the amount
    pattern. *)
Definition lastEditedWellFormed (app : State) : Prop :=
  Str.amountPattern
    (Form.amountOf (Form.lastUpdatedField (form app))
                   (Form.formData (form app))) = true.

(** [app'] comes from [app] without a call of [executeSwap] and without
    a change of the form data. *)
Definition notInvoked (app app' : State) : Prop :=
  swap app' = swap app /\ inFlight app' = inFlight app
  /\ Form.formData (form app') = Form.formData (form app).

(** The events that come from a control of the form. *)
Definition fromControl (ev : Event) : bool :=
  match ev with
  | ChangeFromAmount _ | ChangeToAmount _ | SelectFromToken _
  | SelectToToken _ | ClickSwapButton | ClickMax | ClickSubmit => true
  | _ => false
  end.

(** The events that are no edit of an amount: token choices, the submit
    click, the price refresh and the timeout of the success message. *)
Definition noAmountEdit (ev : Event) : bool :=
  match ev with
  | SelectFromToken _ | SelectToToken _ | ClickSubmit
  | FetchStarted | FetchSettled _ | SuccessTimeout => true
  | _ => false
  end.

(** A submission that passed both validations, made at a usable rate. *)
Definition validated (p : Pending) : Prop :=
  Validators.validateSwapAmount (fromAmount (submitted p)) fromAmountField = None
  /\ fromToken (submitted p) <> toToken (submitted p)
  /\ Num.truthy (rate p) = true.

(** What a recorded transaction owes to the validations and the gate of
    the submit button. *)
Definition wellFounded (tx : Tx.SwapTransaction) : Prop :=
  Tx.fromToken tx <> Tx.toToken tx
  /\ Num.isFinite (Tx.fromAmount tx) = true
  /\ Num.gtb (Tx.fromAmount tx) Num.zero = true
  /\ Num.leb (Tx.fromAmount tx) Num.MAX_SAFE_INTEGER = true
  /\ Num.truthy (Tx.exchangeRate tx) = true.

(** The invariant behind the facts on tokens, transactions and messages:
    the two tokens differ, the token list and the keys of the price table
    agree, every swap in flight was validated, the recorded transaction is well founded, the
    success message has a transaction to show, and neither the form nor
    the hook holds an error while a swap is in flight. *)
Definition sound (app : State) : Prop :=
  consistent app
  /\ fromToken (Form.formData (form app)) <> toToken (Form.formData (form app))
  /\ TokenPrices.listedPriced (store app)
  /\ (forall p, In p (inFlight app) -> validated p)
  /\ (forall tx, Swap.lastTransaction (swap app) = Some tx -> wellFounded tx)
  /\ (Form.showSuccess (form app) = true ->
      is_Some (Swap.lastTransaction (swap app)))
  /\ (Swap.isSwapping (swap app) = true ->
      Form.error (form app) = "" /\ Swap.error (swap app) = None).

End App.

(** ** Concrete feeds, traces and settlement outcomes *)

Module Scenario.

Import App.

(** A feed entry whose price is the decimal literal [m * 10 ^ e10]. *)
Definition entry (c : string) (m e10 : Z) : TokenPrices.TokenApiResponse :=
  {| TokenPrices.currency := c;
     TokenPrices.price := Some (Num.ofDecimal false m e10);
     TokenPrices.date := "2023-08-29T07:10:52.000Z" |}.

(** Prices ETH 3500 and USDC 1. *)
Definition feed : list TokenPrices.TokenApiResponse :=
  [entry "ETH" 3500 0; entry "USDC" 1 0].

(** Prices ETH 0.7 and USDC 1. *)
Definition cheapFeed : list TokenPrices.TokenApiResponse :=
  [entry "ETH" 7 (-1); entry "USDC" 1 0].

(** A feed with an entry named like the accessor of [Object.prototype]. *)
Definition protoFeed : list TokenPrices.TokenApiResponse :=
  [entry "__proto__" 5 0; entry "ETH" 3500 0].

(** A feed with two tokens named like functions of [Object.prototype]. *)
Definition namedFeed : list TokenPrices.TokenApiResponse :=
  [entry "constructor" 2 0; entry "toString" 1 0].


Definition loaded (data : list TokenPrices.TokenApiResponse) : Event :=
  FetchSettled (TokenPrices.FetchOk data).

(** Settlements whose failure draw is 0.5 (success) and 0.05 (failure). *)
Definition okEnv : Swap.Env :=
  {| Swap.random := Num.ofDecimal false 5 (-1); Swap.now := 1700000000000;
     Swap.suffix := "k3j9x0q1z"; Swap.date := 1700000000000 |}.


(** The form with 2 ETH entered, and the same with a swap submitted. *)
Definition entered : State := run [loaded feed; ChangeFromAmount "2"].

Definition submitting : State :=
  run [loaded feed; ChangeFromAmount "2"; ClickSubmit].



(** The same form with ETH chosen on both sides, which the selectors
    do not offer: the handler is applied directly. *)
Definition sameTokens : State :=
  withForm (Form.handleToTokenChange "ETH" (form entered)) entered.

(** The submitted swap of 2 ETH, fulfilled, and the transaction it
    records. *)
Definition settledTrace : list Event :=
  [loaded feed; ChangeFromAmount "2"; ClickSubmit; SwapSettled okEnv].

Definition recorded : Types.Tx.SwapTransaction :=
  Swap.transactionOf
    {| Types.fromToken := "ETH"; Types.toToken := "USDC";
       Types.fromAmount := "2"; Types.toAmount := "7000.000000" |}
    (Num.ofZ 3500) okEnv.

End Scenario.

(** * Properties *)

Import Types.

(** ** Numbers *)

Section NumFacts.

Local Open Scope Z_scope.

Lemma sameValue_refl (x : Num.number) : Num.sameValue x x = true.
Proof.
  destruct x as [s|s| |s m e]; simpl; try reflexivity.
  - destruct s; reflexivity.
  - destruct s; reflexivity.
  - rewrite Pos.eqb_refl, Z.eqb_refl. destruct s; reflexivity.
Qed.

Lemma SFcompare_antisym (x y : spec_float) (c : comparison) :
  SFcompare x y = Some c -> SFcompare y x = Some (CompOpp c).
Proof.
  destruct x as [sx|sx| |sx mx ex], y as [sy|sy| |sy my ey]; simpl;
    try discriminate;
    try (intros [= <-]; try destruct sx; try destruct sy; reflexivity).
  intros [= <-]. f_equal.
  rewrite (Z.compare_antisym ex ey).
  pose proof (Pos.compare_cont_antisym mx my Eq) as H. simpl in H.
  destruct sx, sy; simpl; try reflexivity;
    destruct (ex ?= ey) eqn:E; simpl; try reflexivity;
    rewrite <- H; rewrite ?CompOpp_involutive; reflexivity.
Qed.

(** A number that is neither [NaN] nor at most zero is above zero. *)
Lemma positive_of_not_leb (x : Num.number) :
  Num.isNaN x = false -> Num.leb x Num.zero = false ->
  Num.gtb x Num.zero = true.
Proof.
  destruct x as [s|s| |s m e]; simpl; try discriminate;
    destruct s; simpl; intros; try discriminate; reflexivity.
Qed.

(** A number that is not [NaN] and not above [y] is at most [y]. *)
Lemma leb_of_not_gtb (x y : Num.number) :
  Num.isNaN x = false -> Num.isNaN y = false ->
  Num.gtb x y = false -> Num.leb x y = true.
Proof.
  unfold Num.gtb, Num.leb, SFltb, SFleb. intros Hx Hy.
  destruct (SFcompare y x) as [c|] eqn:E.
  - apply SFcompare_antisym in E. rewrite E.
    destruct c; simpl; intros; try discriminate; reflexivity.
  - destruct x, y; simpl in *; discriminate.
Qed.

(** Nothing infinite lies between zero and a finite bound. *)
Lemma finite_of_bounds (x : Num.number) :
  Num.gtb x Num.zero = true -> Num.leb x Num.MAX_SAFE_INTEGER = true ->
  Num.isFinite x = true.
Proof.
  destruct x as [s|s| |s m e]; simpl; try reflexivity; try discriminate.
  destruct s; intros; discriminate.
Qed.

End NumFacts.

(** ** Decimal digits and fixed notation *)

Section RenderingFacts.

Import Chars.
Local Open Scope Z_scope.

Lemma isDigit_digitChar (d : Z) : 0 <= d < 10 -> isDigit (digitChar d) = true.
Proof.
  intros H.
  assert (d = 0 \/ d = 1 \/ d = 2 \/ d = 3 \/ d = 4 \/ d = 5 \/ d = 6
          \/ d = 7 \/ d = 8 \/ d = 9) as E by lia.
  repeat (destruct E as [->|E]; [reflexivity|]). now subst.
Qed.

Lemma digitVal_digitChar (d : Z) : 0 <= d < 10 -> digitVal (digitChar d) = d.
Proof.
  intros H.
  assert (d = 0 \/ d = 1 \/ d = 2 \/ d = 3 \/ d = 4 \/ d = 5 \/ d = 6
          \/ d = 7 \/ d = 8 \/ d = 9) as E by lia.
  repeat (destruct E as [->|E]; [reflexivity|]). now subst.
Qed.

Lemma digitsAux_digits (fuel : nat) (n : Z) (acc : list ascii) :
  Forall (fun c => isDigit c = true) acc ->
  Forall (fun c => isDigit c = true) (digitsAux fuel n acc).
Proof.
  revert n acc. induction fuel as [|fuel IH]; intros n acc H; simpl; [assumption|].
  assert (Hd : isDigit (digitChar (n mod 10)) = true)
    by (apply isDigit_digitChar, Z.mod_pos_bound; lia).
  destruct (n / 10 =? 0); [|apply IH]; constructor; assumption.
Qed.

Lemma digitsAux_length (fuel : nat) (n : Z) (acc : list ascii) :
  (length acc < length (digitsAux (S fuel) n acc))%nat.
Proof.
  revert n acc. induction fuel as [|fuel IH]; intros n acc.
  - simpl. destruct (n / 10 =? 0); simpl; lia.
  - change (digitsAux (S (S fuel)) n acc)
      with (let acc' := digitChar (n mod 10) :: acc in
            if n / 10 =? 0 then acc' else digitsAux (S fuel) (n / 10) acc').
    cbv zeta. destruct (n / 10 =? 0); [simpl; lia|].
    specialize (IH (n / 10) (digitChar (n mod 10) :: acc)). simpl in IH |- *. lia.
Qed.

Lemma fold_digits (l : list ascii) (a : Z) :
  fold_left (fun acc c => 10 * acc + digitVal c) l a
  = a * 10 ^ Z.of_nat (length l) + digitsVal l.
Proof.
  unfold digitsVal. revert a. induction l as [|c l IH]; intros a.
  - simpl. lia.
  - cbn [fold_left length]. rewrite IH, (IH (10 * 0 + digitVal c)).
    rewrite Nat2Z.inj_succ, Z.pow_succ_r by lia. ring.
Qed.

Lemma digitsVal_cons (c : ascii) (l : list ascii) :
  digitsVal (c :: l) = digitVal c * 10 ^ Z.of_nat (length l) + digitsVal l.
Proof.
  unfold digitsVal at 1. cbn [fold_left]. rewrite fold_digits. ring.
Qed.

Lemma digitsAux_value (fuel : nat) (n : Z) (acc : list ascii) :
  0 <= n < 2 ^ Z.of_nat fuel -> (0 < fuel)%nat ->
  digitsVal (digitsAux fuel n acc)
  = n * 10 ^ Z.of_nat (length acc) + digitsVal acc.
Proof.
  revert n acc. induction fuel as [|fuel IH]; intros n acc Hn Hf; [lia|].
  simpl digitsAux.
  assert (Hm : 0 <= n mod 10 < 10) by (apply Z.mod_pos_bound; lia).
  assert (Hq : 0 <= n / 10) by (apply Z.div_pos; lia).
  pose proof (Z.div_mod n 10 ltac:(lia)) as Hdm.
  destruct (n / 10 =? 0) eqn:E.
  - apply Z.eqb_eq in E. rewrite digitsVal_cons, digitVal_digitChar by assumption.
    nia.
  - apply Z.eqb_neq in E.
    destruct fuel as [|fuel'].
    + simpl in Hn. lia.
    + rewrite IH.
      * cbn [length]. rewrite digitsVal_cons, digitVal_digitChar by assumption.
        rewrite Nat2Z.inj_succ, Z.pow_succ_r by lia. nia.
      * rewrite Nat2Z.inj_succ, Z.pow_succ_r in Hn by lia.
        split; [assumption|].
        apply Z.div_lt_upper_bound; lia.
      * lia.
Qed.

Lemma digits_value (n : Z) : 0 <= n -> digitsVal (digits n) = n.
Proof.
  intros H. unfold digits. rewrite digitsAux_value.
  - simpl. unfold digitsVal. simpl. lia.
  - split; [assumption|].
    destruct (Z.eq_dec n 0) as [->|Hne]; [simpl; lia|].
    rewrite Nat2Z.inj_succ, Z2Nat.id by apply Z.log2_nonneg.
    apply Z.log2_spec. lia.
  - lia.
Qed.

Lemma zeros_digits (k : nat) : Forall (fun c => isDigit c = true) (zeros k).
Proof. unfold zeros. induction k; simpl; constructor; auto. Qed.

Lemma digits_digits (n : Z) : Forall (fun c => isDigit c = true) (digits n).
Proof. apply digitsAux_digits. constructor. Qed.

Lemma digits_length (n : Z) : (0 < length (digits n))%nat.
Proof.
  unfold digits. pose proof (digitsAux_length (Z.to_nat (Z.log2 n)) n []).
  simpl in *. lia.
Qed.

Lemma fixedChars_shape (n : Z) :
  exists int frac : list ascii,
    Num.fixedChars n 6 = int ++ "."%char :: frac
    /\ int <> [] /\ length frac = 6%nat
    /\ Forall (fun c => isDigit c = true) int
    /\ Forall (fun c => isDigit c = true) frac.
Proof.
  unfold Num.fixedChars.
  set (ds := digits n).
  set (ds' := if (length ds <=? 6)%nat then zeros (6 + 1 - length ds) ++ ds else ds).
  assert (Hlen : (7 <= length ds')%nat).
  { subst ds'. pose proof (digits_length n). fold ds in H.
    destruct (length ds <=? 6)%nat eqn:E.
    - apply Nat.leb_le in E. rewrite length_app. unfold zeros.
      rewrite repeat_length. lia.
    - apply Nat.leb_gt in E. lia. }
  assert (Hall : Forall (fun c => isDigit c = true) ds').
  { subst ds'. destruct (length ds <=? 6)%nat.
    - apply Forall_app. split; [apply zeros_digits|apply digits_digits].
    - apply digits_digits. }
  exists (firstn (length ds' - 6) ds'), (skipn (length ds' - 6) ds').
  rewrite <- (firstn_skipn (length ds' - 6) ds') in Hall.
  apply Forall_app in Hall as [Hi Hf].
  split; [reflexivity|]. split.
  - intros E. apply (f_equal (@length _)) in E.
    rewrite firstn_length_le in E by lia. simpl in E. lia.
  - split; [rewrite length_skipn; lia|]. now split.
Qed.

Lemma dropWhile_digits (int rest : list ascii) :
  Forall (fun c => isDigit c = true) int ->
  Str.dropWhile isDigit (int ++ rest) = Str.dropWhile isDigit rest.
Proof.
  induction 1 as [|c l Hc _ IH]; simpl; [reflexivity|]. now rewrite Hc.
Qed.

Lemma sixDecimals_pattern (s : string) :
  Str.sixDecimals s -> Str.amountPattern s = true.
Proof.
  intros (int & frac & E & _ & _ & Hi & Hf).
  unfold Str.amountPattern, Str.amountPatternChars. rewrite E.
  rewrite dropWhile_digits by assumption. simpl.
  rewrite <- (app_nil_r frac), dropWhile_digits by assumption. reflexivity.
Qed.

Lemma toFixed_sixDecimals (x : Num.number) :
  Num.fixedNotation x = true -> Num.signClear x ->
  Str.sixDecimals (Num.toFixed x 6).
Proof.
  unfold Str.sixDecimals, Num.toFixed.
  rewrite list_ascii_of_string_of_list_ascii.
  destruct x as [s|s| |s m e]; unfold Num.fixedNotation, Num.signClear,
    Num.toFixedChars; try discriminate.
  - intros _ _. apply fixedChars_shape.
  - intros -> ->. cbn [negb app]. apply fixedChars_shape.
Qed.

Lemma binary_round_aux_clear (m e : Z) (l : location) :
  Num.signClear (binary_round_aux Num.prec Num.emax false m e l).
Proof.
  unfold binary_round_aux.
  destruct (shr_fexp _ _ _ _ _) as [mrs1 e1].
  destruct (shr_fexp _ _ _ _ _) as [mrs2 e2].
  destruct (shr_m mrs2); simpl; auto.
  destruct (e2 <=? _); reflexivity.
Qed.

Lemma binary_normalize_clear (z : Z) :
  0 <= z -> Num.signClear (binary_normalize Num.prec Num.emax z 0 false).
Proof.
  intros H. destruct z as [|p|p]; simpl; [reflexivity| |lia].
  unfold binary_round. destruct (shl_align _ _ _). apply binary_round_aux_clear.
Qed.

Lemma mul_clear (x y : Num.number) :
  Num.signClear x -> Num.signClear y -> Num.signClear (Num.mul x y).
Proof.
  destruct x as [sx|sx| |sx mx ex], y as [sy|sy| |sy my ey]; simpl;
    try tauto; try (intros -> ->; reflexivity).
  intros -> ->. apply binary_round_aux_clear.
Qed.

Lemma div_clear (x y : Num.number) :
  Num.signClear x -> Num.signClear y -> Num.signClear (Num.div x y).
Proof.
  destruct x as [sx|sx| |sx mx ex], y as [sy|sy| |sy my ey]; simpl;
    try tauto; try (intros -> ->; reflexivity).
  intros -> ->. unfold Num.div, SFdiv.
  destruct (SFdiv_core_binary _ _ _ _ _ _) as [[mz ez] lz].
  apply binary_round_aux_clear.
Qed.

Lemma floor_clear (x : Num.number) :
  Num.signClear x -> Num.signClear (Num.floor x).
Proof.
  destruct x as [s|s| |s m e]; unfold Num.floor, Num.signClear; auto.
  intros ->. destruct (0 <=? e) eqn:E; [reflexivity|].
  apply Z.leb_gt in E.
  apply binary_normalize_clear. apply Z.div_pos; [lia|].
  apply Z.pow_pos_nonneg; lia.
Qed.

Lemma positive_clear (x : Num.number) :
  Num.gtb x Num.zero = true -> Num.signClear x.
Proof.
  destruct x as [s|s| |s m e]; simpl; try discriminate; auto;
    destruct s; try discriminate; reflexivity.
Qed.

Lemma multiplier_clear : Num.signClear (Formatters.multiplier 6).
Proof. reflexivity. Qed.

Lemma truncated_clear (value : Num.number) :
  Num.gtb value Num.zero = true ->
  Num.signClear (Formatters.truncated value 6).
Proof.
  intros H. unfold Formatters.truncated.
  apply div_clear; [|apply multiplier_clear].
  apply floor_clear, mul_clear; [now apply positive_clear|apply multiplier_clear].
Qed.

(** A product with zero is never above zero. *)
Lemma mul_zero_not_positive (x : Num.number) :
  Num.gtb (Num.mul x Num.zero) Num.zero = false.
Proof. destruct x as [s|s| |s m e]; reflexivity. Qed.

End RenderingFacts.

(** ** The form handlers *)

Section FormFacts.

Import Form.

(** C3: [handleSwapTokens] applied twice gives back the state it started
    from, in particular the four fields of the form data; applied once it
    exchanges the two tokens and the two amounts in one state update and
    flips [lastUpdatedField]. *)
Theorem C3_swap_direction_involutive (st : Form.State) :
  handleSwapTokens (handleSwapTokens st) = st
  /\ fromToken (formData (handleSwapTokens st)) = toToken (formData st)
  /\ toToken (formData (handleSwapTokens st)) = fromToken (formData st)
  /\ fromAmount (formData (handleSwapTokens st)) = toAmount (formData st)
  /\ toAmount (formData (handleSwapTokens st)) = fromAmount (formData st)
  /\ lastUpdatedField (handleSwapTokens st) = other (lastUpdatedField st).
Proof.
  destruct st as [[ft tt fa ta] err last shown].
  destruct last; repeat split; reflexivity.
Qed.


(** An edit that fails the pattern check changes nothing but the error. *)
Lemma handleAmountChange_rejects (f : Field) (value : string)
      (rate : Num.number) (st : State) :
  rejects value = true ->
  handleAmountChange f value rate st = setError "Please enter a valid number" st.
Proof.
  intros H. destruct f; simpl;
    unfold handleFromAmountChange, handleToAmountChange; rewrite H;
    reflexivity.
Qed.

(** What a queued update of the rate effect does to any form data. *)
Lemma rateEffectUpdate_frame (rate : Num.number) (st : State)
      (prev : SwapFormData) :
  let next := applyUpdate (rateEffectUpdate rate st) prev in
  fromToken next = fromToken prev
  /\ toToken next = toToken prev
  /\ amountOf (lastUpdatedField st) next = amountOf (lastUpdatedField st) prev.
Proof.
  unfold rateEffectUpdate.
  destruct (Num.gtb rate Num.zero); [|repeat split; reflexivity].
  destruct (lastUpdatedField st); simpl.
  - destruct (Str.isEmpty (fromAmount (formData st))); repeat split; reflexivity.
  - destruct (Str.isEmpty (toAmount (formData st))); repeat split; reflexivity.
Qed.





End FormFacts.

(** ** The mounted component *)

Section AppFacts.

Import App.

Lemma run_snoc (trace : list Event) (ev : Event) :
  run (trace ++ [ev]) = dispatch ev (run trace).
Proof. unfold run. now rewrite fold_left_app. Qed.

(** The rate effect touches the two amounts only. *)
Lemma rateEffect_frame (r : Num.number) (st : Form.State) :
  fromToken (Form.formData (Form.rateEffect r st)) = fromToken (Form.formData st)
  /\ toToken (Form.formData (Form.rateEffect r st)) = toToken (Form.formData st)
  /\ Form.error (Form.rateEffect r st) = Form.error st
  /\ Form.lastUpdatedField (Form.rateEffect r st) = Form.lastUpdatedField st
  /\ Form.showSuccess (Form.rateEffect r st) = Form.showSuccess st.
Proof.
  destruct (rateEffectUpdate_frame r st (Form.formData st)) as (H1 & H2 & _).
  unfold Form.rateEffect. simpl. auto.
Qed.

Lemma afterRender_frame (before after : State) :
  store (afterRender before after) = store after
  /\ swap (afterRender before after) = swap after
  /\ inFlight (afterRender before after) = inFlight after
  /\ fromToken (Form.formData (form (afterRender before after)))
     = fromToken (Form.formData (form after))
  /\ toToken (Form.formData (form (afterRender before after)))
     = toToken (Form.formData (form after)).
Proof.
  unfold afterRender.
  destruct (Num.sameValue (exchangeRate before) (exchangeRate after));
    [repeat split; reflexivity|].
  destruct (rateEffect_frame (exchangeRate after) (form after)) as (H1 & H2 & _).
  simpl. auto.
Qed.

(** Nothing is rendered anew when the state did not change. *)
Lemma afterRender_same (app : State) : afterRender app app = app.
Proof. unfold afterRender. now rewrite sameValue_refl. Qed.

Lemma consistent_afterRender (before after : State) :
  consistent after -> consistent (afterRender before after).
Proof.
  unfold consistent.
  destruct (afterRender_frame before after) as (_ & -> & -> & _).
  auto.
Qed.

Lemma consistent_withForm (f : Form.State) (app : State) :
  consistent app -> consistent (withForm f app).
Proof. unfold consistent. simpl. auto. Qed.

Lemma idle_of_enabled (app : State) :
  consistent app -> Swap.isSwapping (swap app) = false -> inFlight app = [].
Proof.
  intros (H1 & _) H. rewrite H in H1.
  destruct (inFlight app); [reflexivity|discriminate].
Qed.

Lemma controlsEnabled_idle (app : State) :
  controlsEnabled app = true -> Swap.isSwapping (swap app) = false.
Proof.
  unfold controlsEnabled. intros H.
  apply andb_prop in H as [_ H]. now apply negb_true_iff in H.
Qed.

Lemma consistent_handleSubmit (app : State) :
  consistent app -> Swap.isSwapping (swap app) = false ->
  consistent (handleSubmit app).
Proof.
  intros H Hidle. pose proof (idle_of_enabled app H Hidle) as Hnil.
  unfold handleSubmit.
  destruct (Validators.validateSwapAmount _ _).
  { now apply consistent_withForm. }
  destruct (Validators.validateTokensDifferent _ _).
  { now apply consistent_withForm. }
  destruct H as (H1 & H2 & H3).
  unfold consistent. simpl. rewrite Hnil. simpl.
  split; [reflexivity|]. split; [lia|assumption].
Qed.

Lemma consistent_settle (env : Swap.Env) (app : State) :
  consistent app -> consistent (settle env app).
Proof.
  intros H. unfold settle.
  destruct (inFlight app) as [|p rest] eqn:E; [assumption|].
  destruct H as (H1 & H2 & H3). rewrite E in H2. simpl in H2.
  assert (rest = []) as -> by (destruct rest; [reflexivity|simpl in H2; lia]).
  unfold Swap.settle. destruct (Swap.fails env); unfold consistent; simpl.
  - split; [reflexivity|]. split; [lia|assumption].
  - split; [reflexivity|]. split; [lia|].
    intros tx [= <-]. reflexivity.
Qed.

Lemma consistent_handle (ev : Event) (app : State) :
  consistent app -> consistent (handle ev app).
Proof.
  intros H. destruct ev; cbn [handle].
  - destruct (controlsEnabled app); [|assumption].
    now apply consistent_withForm.
  - destruct (controlsEnabled app); [|assumption].
    now apply consistent_withForm.
  - destruct (formShown app && offered app _ _); [|assumption].
    now apply consistent_withForm.
  - destruct (formShown app && offered app _ _); [|assumption].
    now apply consistent_withForm.
  - destruct (controlsEnabled app); [|assumption].
    now apply consistent_withForm.
  - destruct (formShown app); [|assumption].
    now apply consistent_withForm.
  - destruct (formShown app && negb (submitDisabled app)) eqn:G; [|assumption].
    apply consistent_handleSubmit; [assumption|].
    apply andb_prop in G as [_ G]. apply negb_true_iff in G.
    unfold submitDisabled in G.
    destruct (Swap.isSwapping (swap app)); [discriminate|reflexivity].
  - exact H.
  - exact H.
  - now apply consistent_settle.
  - now apply consistent_withForm.
Qed.

Lemma consistent_run (trace : list Event) : consistent (run trace).
Proof.
  induction trace as [|ev trace IH] using rev_ind.
  - unfold consistent. simpl.
    split; [reflexivity|]. split; [lia|discriminate].
  - rewrite run_snoc. apply consistent_afterRender.
    now apply consistent_handle.
Qed.

End AppFacts.

(** ** Submission and settlement *)

Section SubmitFacts.

Import App.

(** C2: [handleSubmit] is called by the submit button only, and while
    [isSwapping] holds that button is disabled: a click on it changes
    nothing and starts no [executeSwap]; and in every state that the
    component reaches through its events at most one swap is in flight,
    exactly when [isSwapping] holds. *)
Theorem C2_submit_button_gate :
  (forall app : State,
      Swap.isSwapping (swap app) = true -> dispatch ClickSubmit app = app)
  /\ (forall trace : list Event,
        (length (inFlight (run trace)) <= 1)%nat
        /\ Swap.isSwapping (swap (run trace))
           = negb (Nat.eqb (length (inFlight (run trace))) 0)).
Proof.
  split.
  - intros app H. unfold dispatch. simpl.
    unfold submitDisabled. rewrite H. simpl.
    rewrite andb_false_r. apply afterRender_same.
  - intros trace. destruct (consistent_run trace) as (H1 & H2 & _). auto.
Qed.

Lemma C2_submit_button_gate_witness :
  Swap.isSwapping (swap Scenario.submitting) = true
  /\ dispatch ClickSubmit Scenario.submitting = Scenario.submitting.
Proof.
  split; [reflexivity|].
  exact (proj1 C2_submit_button_gate Scenario.submitting eq_refl).
Defined.

(** What [validateSwapAmount] lets through. *)
Lemma validateSwapAmount_none (amount : string) (fld : ErrorField) :
  Validators.validateSwapAmount amount fld = None ->
  amount <> ""
  /\ Str.amountPattern amount = true
  /\ Num.isFinite (Str.parseFloat amount) = true
  /\ Num.gtb (Str.parseFloat amount) Num.zero = true
  /\ Num.leb (Str.parseFloat amount) Num.MAX_SAFE_INTEGER = true.
Proof.
  unfold Validators.validateSwapAmount.
  destruct (Str.isEmpty amount) eqn:E1; [discriminate|]. simpl.
  destruct (Str.isEmpty (Str.trim amount)); [discriminate|].
  destruct (Str.amountPattern amount) eqn:E2; [|discriminate]. simpl.
  destruct (Num.isNaN (Str.parseFloat amount)) eqn:E3; [discriminate|]. simpl.
  destruct (Num.leb (Str.parseFloat amount) Num.zero) eqn:E4; [discriminate|].
  destruct (Num.gtb (Str.parseFloat amount) Num.MAX_SAFE_INTEGER) eqn:E5;
    [discriminate|].
  intros _.
  assert (Hpos : Num.gtb (Str.parseFloat amount) Num.zero = true)
    by now apply positive_of_not_leb.
  assert (Hle : Num.leb (Str.parseFloat amount) Num.MAX_SAFE_INTEGER = true)
    by now apply leb_of_not_gtb.
  split; [intros ->; discriminate|].
  split; [reflexivity|]. split; [now apply finite_of_bounds|]. now split.
Qed.

(** C7: [handleSubmit] calls [executeSwap] only when the amount is not
    empty, parses to a finite number above zero and at most
    [Number.MAX_SAFE_INTEGER], and the two tokens differ; otherwise it sets
    the message of the validation error and calls nothing.  With the amount
    "0" the message is "Amount must be greater than 0"; with equal tokens
    nothing is called, and the message is "Cannot swap the same token" once
    the amount has passed its own validation, which comes first. *)
Theorem C7_submit_validates (app : State) :
  let fd := Form.formData (form app) in
  let app' := handleSubmit app in
  (inFlight app' <> inFlight app ->
     fromAmount fd <> ""
     /\ Num.isFinite (Str.parseFloat (fromAmount fd)) = true
     /\ Num.gtb (Str.parseFloat (fromAmount fd)) Num.zero = true
     /\ Num.leb (Str.parseFloat (fromAmount fd)) Num.MAX_SAFE_INTEGER = true
     /\ fromToken fd <> toToken fd)
  /\ (inFlight app' = inFlight app ->
        notInvoked app app'
        /\ exists e : ValidationError,
             Form.error (form app') = message e
             /\ (Validators.validateSwapAmount (fromAmount fd) fromAmountField = Some e
                 \/ Validators.validateTokensDifferent (fromToken fd) (toToken fd) = Some e))
  /\ (fromAmount fd = "0" ->
        notInvoked app app'
        /\ Form.error (form app') = "Amount must be greater than 0")
  /\ (fromToken fd = toToken fd ->
        notInvoked app app'
        /\ (Validators.validateSwapAmount (fromAmount fd) fromAmountField = None ->
            Form.error (form app') = "Cannot swap the same token")).
Proof.
  cbv zeta. unfold handleSubmit, notInvoked.
  destruct (Validators.validateSwapAmount _ _) as [e|] eqn:Ea.
  - simpl. split; [now intros []|]. split; [|split].
    + intros _. split; [auto|]. exists e. auto.
    + intros E0. rewrite E0 in Ea. vm_compute in Ea.
      injection Ea as <-. auto.
    + intros _. split; [auto|discriminate].
  - apply validateSwapAmount_none in Ea as (Hne & _ & Hfin & Hpos & Hle).
    unfold Validators.validateTokensDifferent.
    destruct (String.eqb _ _) eqn:Et; simpl.
    + split; [now intros []|]. split; [|split].
      * intros _. split; [auto|].
        exists {| field := general; message := "Cannot swap the same token" |}.
        split; [reflexivity|]. now right.
      * intros E0. rewrite E0 in Hpos. vm_compute in Hpos. discriminate.
      * intros _. auto.
    + apply String.eqb_neq in Et. split; [auto 10|]. split; [|split].
      * intros E. exfalso.
        apply (f_equal (@length _)) in E. rewrite length_app in E.
        simpl in E. lia.
      * intros E0. rewrite E0 in Hpos. vm_compute in Hpos. discriminate.
      * intros E. now destruct Et.
Qed.

(** The validation at concrete forms: the amount "0"; the token ETH on
    both sides with the amount 2; and the accepted submission of 2 ETH. *)
Lemma C7_submit_validates_witness :
  Form.error (form (handleSubmit (run [Scenario.loaded Scenario.feed;
                                       ChangeFromAmount "0"])))
  = "Amount must be greater than 0"
  /\ Form.error (form (handleSubmit Scenario.sameTokens))
     = "Cannot swap the same token"
  /\ fromToken (Form.formData (form Scenario.entered))
     <> toToken (Form.formData (form Scenario.entered)).
Proof.
  split; [|split].
  - exact (proj2 (proj1 (proj2 (proj2
             (C7_submit_validates (run [Scenario.loaded Scenario.feed;
                                        ChangeFromAmount "0"])))) eq_refl)).
  - exact (proj2 (proj2 (proj2 (proj2
             (C7_submit_validates Scenario.sameTokens))) eq_refl) eq_refl).
  - apply (proj1 (C7_submit_validates Scenario.entered)).
    vm_compute. discriminate.
Defined.

(** The rate depends on the price table and the two tokens only. *)
Lemma exchangeRate_ext (app app' : State) :
  store app' = store app ->
  fromToken (Form.formData (form app')) = fromToken (Form.formData (form app)) ->
  toToken (Form.formData (form app')) = toToken (Form.formData (form app)) ->
  exchangeRate app' = exchangeRate app.
Proof.
  unfold exchangeRate, Form.exchangeRate. now intros -> -> ->.
Qed.













(** C10: a transaction that [executeSwap] returns has status [completed]
    and is the one stored as [lastTransaction]; a rejected settlement
    returns none and leaves [lastTransaction] as it was; so every
    [lastTransaction] the component ever shows is completed. *)
Theorem C10_only_completed_transactions :
  (forall (fd : SwapFormData) (r : Num.number) (env : Swap.Env) (st : Swap.State),
      match Swap.settle fd r env st with
      | (Some tx, st') =>
          Tx.status tx = completed /\ Swap.lastTransaction st' = Some tx
          /\ Swap.fails env = false
      | (None, st') =>
          Swap.lastTransaction st' = Swap.lastTransaction st
          /\ Swap.fails env = true
      end)
  /\ (forall trace : list Event,
        match Swap.lastTransaction (swap (run trace)) with
        | Some tx => Tx.status tx = completed
        | None => True
        end).
Proof.
  split.
  - intros fd r env st. unfold Swap.settle.
    destruct (Swap.fails env); simpl; auto.
  - intros trace. destruct (consistent_run trace) as (_ & _ & H).
    destruct (Swap.lastTransaction (swap (run trace))); auto.
Qed.

End SubmitFacts.

(** ** The price store *)

Section PriceStoreFacts.

Import TokenPrices.

(** Assignment to a plain object, seen from its own properties. *)
Lemma set_lookup_Some (k c : string) (n p : Num.number) (o : Obj.t) :
  Obj.set k n o !! c = Some p -> (k = c /\ n = p) \/ o !! c = Some p.
Proof.
  unfold Obj.set. destruct (o !! k); [|destruct (String.eqb k "__proto__")];
    try (intros H; now right);
    intros H; apply lookup_insert_Some in H as [[-> ->]|[_ H]]; auto.
Qed.

Lemma set_keeps (k c : string) (n : Num.number) (o : Obj.t) :
  is_Some (o !! c) -> is_Some (Obj.set k n o !! c).
Proof.
  intros H. unfold Obj.set.
  destruct (o !! k); [|destruct (String.eqb k "__proto__")];
    try assumption; apply lookup_insert_is_Some'; now right.
Qed.

Lemma set_adds (k : string) (n : Num.number) (o : Obj.t) :
  k <> "__proto__"%string -> Obj.set k n o !! k = Some n.
Proof.
  intros H. unfold Obj.set. apply String.eqb_neq in H. rewrite H.
  destruct (o !! k); apply lookup_insert_eq.
Qed.

Lemma set_proto (k : string) (n : Num.number) (o : Obj.t) :
  o !! "__proto__"%string = None -> Obj.set k n o !! "__proto__"%string = None.
Proof.
  intros H. unfold Obj.set.
  destruct (String.eqb k "__proto__") eqn:E.
  - apply String.eqb_eq in E. subst k. now rewrite H.
  - apply String.eqb_neq in E.
    destruct (o !! k); now rewrite lookup_insert_ne.
Qed.

Lemma fold_addPrice_Some (l : list TokenApiResponse) (acc : TokenPrice)
      (c : string) (p : Num.number) :
  fold_left addPrice l acc !! c = Some p ->
  acc !! c = Some p
  \/ exists token, token ∈ l /\ currency token = c /\ price token = Some p.
Proof.
  revert acc. induction l as [|t l IH]; intros acc H; simpl in H; [now left|].
  destruct (IH _ H) as [Hacc|(token & Hin & Hc & Hp)].
  - unfold addPrice in Hacc. destruct (price t) as [q|] eqn:Eq; [|now left].
    apply set_lookup_Some in Hacc as [[Hc ->]|Hacc]; [|now left].
    right. exists t. split; [left|]. now split.
  - right. exists token. split; [now right|]. now split.
Qed.

Lemma fold_addPrice_keeps (l : list TokenApiResponse) (acc : TokenPrice)
      (c : string) :
  is_Some (acc !! c) -> is_Some (fold_left addPrice l acc !! c).
Proof.
  revert acc. induction l as [|t l IH]; intros acc H; simpl; [assumption|].
  apply IH. unfold addPrice. destruct (price t); [|assumption].
  now apply set_keeps.
Qed.

Lemma fold_addPrice_adds (l : list TokenApiResponse) (acc : TokenPrice)
      (token : TokenApiResponse) (p : Num.number) :
  token ∈ l -> price token = Some p -> currency token <> "__proto__"%string ->
  is_Some (fold_left addPrice l acc !! currency token).
Proof.
  revert acc. induction l as [|t l IH]; intros acc Hin Hp Hne.
  - inversion Hin.
  - simpl. apply elem_of_cons in Hin as [<-|Hin]; [|now apply IH].
    apply fold_addPrice_keeps. unfold addPrice. rewrite Hp.
    rewrite set_adds by assumption. eauto.
Qed.

Lemma fold_addPrice_proto (l : list TokenApiResponse) (acc : TokenPrice) :
  acc !! "__proto__"%string = None ->
  fold_left addPrice l acc !! "__proto__"%string = None.
Proof.
  revert acc. induction l as [|t l IH]; intros acc H; simpl; [assumption|].
  apply IH. unfold addPrice. destruct (price t); [|assumption].
  now apply set_proto.
Qed.




(** A feed entry named [__proto__] is listed as a token and sets no key;
    looked up, the name gives the prototype, not a price. *)
Example proto_entry_sets_no_key :
  let st := fetchSettle (FetchOk Scenario.protoFeed) initial in
  map Types.currency (tokens st) = ["__proto__"; "ETH"]%string
  /\ prices st = {["ETH"%string := Num.ofZ 3500]}
  /\ Obj.get (prices st) "__proto__" = Obj.object
  /\ TokenUtils.hasTokenPrice "__proto__" (prices st) = true.
Proof. vm_compute. repeat split; reflexivity. Qed.

End PriceStoreFacts.

(** ** Conversion and the form of the amounts *)

Section ConversionFacts.

Import App.

(** The rate is zero when one of the two tokens finds nothing in the table,
    or a price that is zero or [NaN]. *)
Lemma exchangeRate_absent (prices : TokenPrice) (fd : SwapFormData) :
  Obj.truthy (Obj.get prices (fromToken fd)) = false
  \/ Obj.truthy (Obj.get prices (toToken fd)) = false ->
  Form.exchangeRate prices fd = Num.zero.
Proof.
  unfold Form.exchangeRate. intros [ -> | -> ]; [reflexivity|].
  now rewrite andb_false_r.
Qed.

(** Without a rate both amount handlers leave the other field empty. *)
Lemma amount_handlers_without_rate (value : string) (st : Form.State) :
  Form.rejects value = false ->
  toAmount (Form.formData (Form.handleFromAmountChange value Num.zero st)) = ""
  /\ fromAmount (Form.formData (Form.handleToAmountChange value Num.zero st)) = "".
Proof.
  intros H. unfold Form.handleFromAmountChange, Form.handleToAmountChange.
  rewrite H. simpl. unfold Form.counterpart.
  now rewrite mul_zero_not_positive.
Qed.

(** What the handlers write for a converted value: nothing unless it is
    above zero, and then digits with six decimals as long as the truncated
    value is finite and below [10 ^ 21]. *)
Lemma counterpart_forms (converted : Num.number) :
  (Num.gtb converted Num.zero = false -> Form.counterpart converted = "")
  /\ (Num.gtb converted Num.zero = true ->
      Num.fixedNotation (Formatters.truncated converted 6) = true ->
      Str.sixDecimals (Form.counterpart converted)).
Proof.
  unfold Form.counterpart. split; intros Hc; rewrite Hc; [reflexivity|].
  intros H. apply toFixed_sixDecimals; [assumption|].
  now apply truncated_clear.
Qed.

Lemma rejects_false_pattern (value : string) :
  Form.rejects value = false -> Str.amountPattern value = true.
Proof.
  unfold Form.rejects. destruct value as [|c value]; [reflexivity|].
  simpl. now destruct (Str.amountPattern (String c value)).
Qed.

Lemma lastEdited_handle (ev : Event) (app : State) :
  lastEditedWellFormed app -> lastEditedWellFormed (handle ev app).
Proof.
  unfold lastEditedWellFormed. intros H.
  assert (Hfrom : forall value r,
             Str.amountPattern
               (Form.amountOf
                  (Form.lastUpdatedField (Form.handleFromAmountChange value r (form app)))
                  (Form.formData (Form.handleFromAmountChange value r (form app))))
             = true).
  { intros value r. unfold Form.handleFromAmountChange.
    destruct (Form.rejects value) eqn:E; [exact H|].
    simpl. now apply rejects_false_pattern. }
  destruct ev; simpl; try assumption.
  - destruct (controlsEnabled app); [apply Hfrom|assumption].
  - destruct (controlsEnabled app); [|assumption]. simpl.
    unfold Form.handleToAmountChange.
    destruct (Form.rejects value) eqn:E; [exact H|].
    simpl. now apply rejects_false_pattern.
  - destruct (formShown app && _); [|assumption].
    simpl. destruct (Form.lastUpdatedField (form app)); assumption.
  - destruct (formShown app && _); [|assumption].
    simpl. destruct (Form.lastUpdatedField (form app)); assumption.
  - destruct (controlsEnabled app); [|assumption].
    simpl. destruct (Form.lastUpdatedField (form app)); assumption.
  - destruct (formShown app); [apply Hfrom|assumption].
  - destruct (formShown app && _); [|assumption].
    unfold handleSubmit.
    destruct (Validators.validateSwapAmount _ _); [assumption|].
    destruct (Validators.validateTokensDifferent _ _); assumption.
  - unfold settle. destruct (inFlight app) as [|p rest]; [assumption|].
    unfold Swap.settle. destruct (Swap.fails env); [assumption|].
    simpl. now destruct (Form.lastUpdatedField (form app)).
Qed.

Lemma lastEdited_afterRender (before after : State) :
  lastEditedWellFormed after -> lastEditedWellFormed (afterRender before after).
Proof.
  unfold lastEditedWellFormed, afterRender. intros H.
  destruct (Num.sameValue _ _); [assumption|]. simpl.
  destruct (rateEffectUpdate_frame (exchangeRate after) (form after)
              (Form.formData (form after))) as (_ & _ & ->).
  assumption.
Qed.

(** In every state the component reaches, the amount of the field edited
    last matches the amount pattern: a value that fails the pattern never
    reaches the state. *)
Lemma lastEdited_run (trace : list Event) : lastEditedWellFormed (run trace).
Proof.
  induction trace as [|ev trace IH] using rev_ind; [reflexivity|].
  rewrite run_snoc. now apply lastEdited_afterRender, lastEdited_handle.
Qed.

(** C4: with ETH at 0.7 and USDC at 1, the amount 0.1 converts to the
    product 0.06999999999999999, which is below 7/100; multiplied by
    [10 ^ 6] it rounds to 70000, the floor keeps it, and the amount shown
    is "0.070000", above the product. *)
Theorem C4_truncation_exceeds_product :
  let rate := exchangeRate (run [Scenario.loaded Scenario.cheapFeed]) in
  let converted := Num.mul (Formatters.parseNumber "0.1") rate in
  toAmount (Form.formData
              (form (run [Scenario.loaded Scenario.cheapFeed;
                          ChangeFromAmount "0.1"])))
  = Formatters.truncateDecimals converted 6
  /\ Formatters.truncateDecimals converted 6 = "0.070000"
  /\ Num.toString converted = "0.06999999999999999"
  /\ Num.mul converted (Formatters.multiplier 6) = Num.ofZ 70000
  /\ Num.ltb converted (Str.parseFloat "0.070000") = true
  /\ match converted with
     | S754_finite false m e => Num.ratLt (Zpos m) e 7 (-2) = true
     | _ => False
     end.
Proof. vm_compute. repeat split; reflexivity. Qed.

(** C5: with ETH at 3500 and USDC at 1, the amount 1000000000000000000
    converts to a product above zero, and the amount written to the other
    field is "3.5e+21": it has no six decimal digits. *)
Theorem C5_large_product_in_exponent_notation :
  let rate := exchangeRate (run [Scenario.loaded Scenario.feed]) in
  let converted := Num.mul (Formatters.parseNumber "1000000000000000000") rate in
  Num.gtb converted Num.zero = true
  /\ Form.counterpart converted = "3.5e+21"
  /\ toAmount (Form.formData
                 (form (run [Scenario.loaded Scenario.feed;
                             ChangeFromAmount "1000000000000000000"])))
     = "3.5e+21".
Proof. vm_compute. repeat split; reflexivity. Qed.

(** C9: the component reaches a state whose [toAmount] does not match the
    amount pattern: with ETH at 3500 and USDC at 1, typing
    2000000000000000000 into the first field writes "7e+21" into the
    second, and the swap button then moves a value of that form into the
    first. *)
Theorem C9_reachable_malformed_amount :
  let typed := run [Scenario.loaded Scenario.feed;
                    ChangeFromAmount "2000000000000000000"] in
  let swapped := dispatch ClickSwapButton typed in
  toAmount (Form.formData (form typed)) = "7e+21"
  /\ Str.amountPattern (toAmount (Form.formData (form typed))) = false
  /\ Str.isEmpty (toAmount (Form.formData (form typed))) = false
  /\ Str.amountPattern (fromAmount (Form.formData (form swapped))) = false.
Proof. vm_compute. repeat split; reflexivity. Qed.

(** *** The scenarios of the specification, with ETH at 3500 and USDC at 1 *)

Example scenario_A :
  toAmount (Form.formData (form (run [Scenario.loaded Scenario.feed;
                                      ChangeFromAmount "2"])))
  = "7000.000000".
Proof. vm_compute. reflexivity. Qed.

Example scenario_B :
  fromAmount (Form.formData (form (run [Scenario.loaded Scenario.feed;
                                        ChangeToAmount "100"])))
  = "0.028571".
Proof. vm_compute. reflexivity. Qed.

Example scenario_C :
  Form.formData (Form.handleSwapTokens (form Scenario.entered))
  = {| fromToken := "USDC"; toToken := "ETH";
       fromAmount := "7000.000000"; toAmount := "2" |}.
Proof. vm_compute. reflexivity. Qed.

(** After the click on the swap button the rate has changed to 1/3500, and
    the rate effect derives the first amount anew from the 2 that is now
    the last edited amount; a second click brings back the first state. *)
Example swap_then_rate_effect :
  Form.formData (form (dispatch ClickSwapButton Scenario.entered))
  = {| fromToken := "USDC"; toToken := "ETH";
       fromAmount := "6999.999999"; toAmount := "2" |}
  /\ Form.formData (form (dispatch ClickSwapButton
                            (dispatch ClickSwapButton Scenario.entered)))
     = Form.formData (form Scenario.entered).
Proof. vm_compute. split; reflexivity. Qed.

End ConversionFacts.

(** * Further properties of the code *)

(** ** The amount pattern and the validation of an amount *)

Section PatternFacts.

Import Chars.
Local Open Scope Z_scope.

Lemma takeWhile_dropWhile (p : ascii -> bool) (l : list ascii) :
  Str.takeWhile p l ++ Str.dropWhile p l = l.
Proof.
  induction l as [|c l IH]; simpl; [reflexivity|].
  destruct (p c); simpl; [now rewrite IH|reflexivity].
Qed.

Lemma takeWhile_all (p : ascii -> bool) (l : list ascii) :
  Forall (fun c => p c = true) (Str.takeWhile p l).
Proof.
  induction l as [|c l IH]; simpl; [constructor|].
  destruct (p c) eqn:E; constructor; assumption.
Qed.

Lemma dropWhile_nil (p : ascii -> bool) (l : list ascii) :
  Str.dropWhile p l = [] <-> Forall (fun c => p c = true) l.
Proof.
  induction l as [|c l IH]; simpl; [split; [constructor|reflexivity]|].
  destruct (p c) eqn:E.
  - rewrite IH. split; [now constructor|now inversion 1].
  - split; [discriminate|]. inversion 1. congruence.
Qed.

Lemma dropWhile_head (p : ascii -> bool) (l r : list ascii) (c : ascii) :
  Str.dropWhile p l = c :: r -> p c = false.
Proof.
  induction l as [|d l IH]; simpl; [discriminate|].
  destruct (p d) eqn:E; [assumption|]. now intros [= <- _].
Qed.

Lemma dropWhile_id (p : ascii -> bool) (l : list ascii) :
  Forall (fun c => p c = false) l -> Str.dropWhile p l = l.
Proof. destruct 1 as [|c l H _]; simpl; [reflexivity|now rewrite H]. Qed.

(** A string that matches the pattern is made of digits around at most one
    point. *)
Lemma amountPattern_shape (l : list ascii) :
  Str.amountPatternChars l = true ->
  exists int frac : list ascii,
    Forall (fun c => isDigit c = true) int
    /\ Forall (fun c => isDigit c = true) frac
    /\ (l = int \/ l = int ++ "."%char :: frac).
Proof.
  unfold Str.amountPatternChars. intros H.
  exists (Str.takeWhile isDigit l).
  pose proof (takeWhile_dropWhile isDigit l) as Hsplit.
  pose proof (takeWhile_all isDigit l) as Hint.
  destruct (Str.dropWhile isDigit l) as [|c r] eqn:Er.
  - exists []. rewrite app_nil_r in Hsplit. auto.
  - destruct (Ascii.eqb c ".") eqn:Ec.
    + apply Ascii.eqb_eq in Ec. subst c. exists r.
      split; [assumption|]. split; [|now right].
      apply dropWhile_nil. now destruct (Str.dropWhile isDigit r).
    + apply dropWhile_head in Er. simpl in H. rewrite Er in H. discriminate.
Qed.

(** X1: the amount pattern accepts exactly the strings made of digits,
    with at most one point among them: the empty string, "10", "10." and
    ".5" as well as "." alone, and nothing with a sign, a letter, a space
    or a second point. *)
Theorem X1_amount_pattern_language (s : string) :
  Str.amountPattern s = true <->
  exists int frac : list ascii,
    Forall (fun c => isDigit c = true) int
    /\ Forall (fun c => isDigit c = true) frac
    /\ (list_ascii_of_string s = int
        \/ list_ascii_of_string s = int ++ "."%char :: frac).
Proof.
  split; [apply amountPattern_shape|].
  intros (int & frac & Hi & Hf & [E|E]); unfold Str.amountPattern,
    Str.amountPatternChars; rewrite E.
  - rewrite <- (app_nil_r int), dropWhile_digits by assumption. reflexivity.
  - rewrite dropWhile_digits by assumption. simpl.
    rewrite <- (app_nil_r frac), dropWhile_digits by assumption. reflexivity.
Qed.

Lemma digit_not_space (c : ascii) : isDigit c = true -> isSpace c = false.
Proof.
  unfold isDigit, isSpace. intros H.
  apply andb_prop in H as [H1 H2]. apply Z.leb_le in H1, H2.
  apply orb_false_iff. split; [apply orb_false_iff; split|].
  - apply andb_false_iff. right. apply Z.leb_gt. lia.
  - apply Z.eqb_neq. lia.
  - apply Z.eqb_neq. lia.
Qed.

Lemma digit_not_sign (c : ascii) :
  isDigit c = true -> Ascii.eqb c "-" = false /\ Ascii.eqb c "+" = false
                      /\ Ascii.eqb c "I" = false.
Proof.
  intros H. repeat split; apply Ascii.eqb_neq; intros ->; discriminate.
Qed.

(** No character of a matching string is white space. *)
Lemma amountPattern_no_space (l : list ascii) :
  Str.amountPatternChars l = true -> Forall (fun c => isSpace c = false) l.
Proof.
  intros H. apply amountPattern_shape in H as (int & frac & Hi & Hf & [->| ->]).
  - eapply Forall_impl; [exact Hi|apply digit_not_space].
  - apply Forall_app. split.
    + eapply Forall_impl; [exact Hi|apply digit_not_space].
    + constructor; [reflexivity|].
      eapply Forall_impl; [exact Hf|apply digit_not_space].
Qed.

Lemma trimChars_id (l : list ascii) :
  Forall (fun c => isSpace c = false) l ->
  rev (Str.dropWhile isSpace (rev (Str.dropWhile isSpace l))) = l.
Proof.
  intros H. rewrite (dropWhile_id isSpace l H).
  rewrite dropWhile_id; [apply rev_involutive|].
  now apply Forall_rev.
Qed.

Lemma string_of_list_ascii_inj_nil (l : list ascii) :
  string_of_list_ascii l = ""%string -> l = [].
Proof. destruct l; [reflexivity|discriminate]. Qed.

Lemma isEmpty_true (s : string) : Str.isEmpty s = true <-> s = ""%string.
Proof. destruct s; simpl; split; congruence. Qed.

(** [trim] gives the empty string exactly for strings of white space. *)
Lemma trim_empty (s : string) :
  Str.isEmpty (Str.trim s) = true <->
  Forall (fun c => isSpace c = true) (list_ascii_of_string s).
Proof.
  rewrite isEmpty_true. unfold Str.trim. split.
  - intros H. apply string_of_list_ascii_inj_nil in H.
    apply (f_equal (@rev _)) in H. rewrite rev_involutive in H. simpl in H.
    apply dropWhile_nil.
    destruct (Str.dropWhile isSpace (list_ascii_of_string s)) as [|c r] eqn:E;
      [reflexivity|].
    pose proof (dropWhile_head _ _ _ _ E) as Hc.
    apply dropWhile_nil in H. apply Forall_rev in H.
    rewrite rev_involutive in H. inversion H. congruence.
  - intros H. apply dropWhile_nil in H. rewrite H. reflexivity.
Qed.

End PatternFacts.

Section ValidationFacts.

Import Chars.
Local Open Scope Z_scope.

Lemma ofDecimal_clear (m e10 : Z) : Num.signClear (Num.ofDecimal false m e10).
Proof.
  unfold Num.ofDecimal. destruct m as [|p|p]; [reflexivity| |reflexivity].
  destruct (0 <=? e10).
  - unfold binary_round. destruct (shl_align _ _ _). apply binary_round_aux_clear.
  - unfold SFdiv. destruct (SFdiv_core_binary _ _ _ _ _ _) as [[mz ez] lz].
    apply binary_round_aux_clear.
Qed.

(** A string that does not start with a minus sign, white space apart,
    never parses to a number with the sign bit set. *)
Lemma parseFloat_clear (s : string) :
  fst (Str.signOf (Str.dropWhile isSpace (list_ascii_of_string s))) = false ->
  Num.signClear (Str.parseFloat s).
Proof.
  unfold Str.parseFloat.
  destruct (Str.signOf _) as [neg l1]. cbn [fst]. intros ->.
  match goal with |- context [if ?b then _ else _] => destruct b end;
    [reflexivity|].
  cbv zeta.
  match goal with |- context [match ?l with [] => _ | _ :: _ => _ end] =>
    destruct l end; [exact I|apply ofDecimal_clear].
Qed.

Lemma signOf_pattern (l : list ascii) :
  Str.amountPatternChars l = true ->
  fst (Str.signOf (Str.dropWhile isSpace l)) = false.
Proof.
  intros H. rewrite dropWhile_id by now apply amountPattern_no_space.
  apply amountPattern_shape in H as (int & frac & Hi & Hf & [->| ->]).
  - destruct Hi as [|c int Hc _]; [reflexivity|]. simpl.
    destruct (digit_not_sign c Hc) as (-> & -> & _). reflexivity.
  - destruct Hi as [|c int Hc _]; [reflexivity|]. simpl.
    destruct (digit_not_sign c Hc) as (-> & -> & _). reflexivity.
Qed.

(** X2: a value that matches the amount pattern never parses to a negative
    number, and [parseNumber] never yields [NaN]: what the amount handlers
    convert is zero or above. *)
Theorem X2_accepted_amount_not_negative (value : string) :
  Str.amountPattern value = true ->
  Num.signClear (Formatters.parseNumber value)
  /\ Num.isNaN (Formatters.parseNumber value) = false
  /\ Num.ltb (Formatters.parseNumber value) Num.zero = false.
Proof.
  intros H. unfold Formatters.parseNumber.
  pose proof (parseFloat_clear value (signOf_pattern _ H)) as Hc.
  destruct (Str.parseFloat value) as [s|s| |s m e]; simpl in *; subst;
    repeat split; reflexivity.
Qed.

Lemma X2_accepted_amount_not_negative_witness :
  Str.amountPattern "0.028571" = true
  /\ Num.ltb (Formatters.parseNumber "0.028571") Num.zero = false.
Proof.
  split; [reflexivity|].
  exact (proj2 (proj2 (X2_accepted_amount_not_negative "0.028571" eq_refl))).
Defined.

Lemma gtb_zero_facts (x : Num.number) :
  Num.gtb x Num.zero = true ->
  Num.isNaN x = false /\ Num.leb x Num.zero = false.
Proof.
  destruct x as [s|s| |s m e]; simpl; try discriminate;
    destruct s; try discriminate; intros _; split; reflexivity.
Qed.

Lemma leb_not_gtb (x y : Num.number) :
  Num.leb x y = true -> Num.gtb x y = false.
Proof.
  unfold Num.leb, Num.gtb, SFleb, SFltb.
  destruct (SFcompare x y) as [c|] eqn:E; [|discriminate].
  rewrite (SFcompare_antisym _ _ _ E). now destruct c.
Qed.

(** X3: [validateSwapAmount] returns no error exactly for the non-empty
    strings that match the amount pattern and parse to a number above zero
    and at most [Number.MAX_SAFE_INTEGER], whatever the field. *)
Theorem X3_validateSwapAmount_accepts (amount : string) (fld : ErrorField) :
  Validators.validateSwapAmount amount fld = None <->
  amount <> ""%string
  /\ Str.amountPattern amount = true
  /\ Num.gtb (Str.parseFloat amount) Num.zero = true
  /\ Num.leb (Str.parseFloat amount) Num.MAX_SAFE_INTEGER = true.
Proof.
  split.
  - intros H. apply validateSwapAmount_none in H. tauto.
  - intros (Hne & Hp & Hpos & Hle).
    unfold Validators.validateSwapAmount.
    destruct (Str.isEmpty amount) eqn:E1.
    { apply isEmpty_true in E1. contradiction. }
    destruct (Str.isEmpty (Str.trim amount)) eqn:E2.
    { exfalso. unfold Str.trim in E2.
      rewrite trimChars_id in E2 by now apply amountPattern_no_space.
      rewrite string_of_list_ascii_of_string in E2. congruence. }
    simpl. rewrite Hp. simpl.
    destruct (gtb_zero_facts _ Hpos) as [-> ->]. simpl.
    now rewrite (leb_not_gtb _ _ Hle).
Qed.

(** X4: the message "Amount is required" is given exactly for the strings
    that consist of white space only (blanks, no-break spaces, tabs and
    line ends), the empty string among them. *)
Theorem X4_amount_required (amount : string) (fld : ErrorField) :
  (exists e, Validators.validateSwapAmount amount fld = Some e
             /\ message e = "Amount is required"%string)
  <-> Forall (fun c => isSpace c = true) (list_ascii_of_string amount).
Proof.
  unfold Validators.validateSwapAmount. split.
  - intros (e & H & Hm).
    destruct (Str.isEmpty amount) eqn:E1.
    { apply isEmpty_true in E1. subst. constructor. }
    destruct (Str.isEmpty (Str.trim amount)) eqn:E2; [now apply trim_empty|].
    simpl in H.
    destruct (negb (Str.amountPattern amount));
      [injection H as <-; discriminate|].
    destruct (_ || _); [injection H as <-; discriminate|].
    destruct (Num.gtb _ _); [injection H as <-; discriminate|discriminate].
  - intros H. apply trim_empty in H. rewrite H, orb_true_r. eauto.
Qed.

(** A no-break space is white space like a blank: alone or with blanks
    it leaves nothing after [trim]. *)
Example nbsp_amount_is_required :
  Validators.validateSwapAmount (String (ascii_of_nat 160) " ") fromAmountField
  = Some {| field := fromAmountField; message := "Amount is required" |}
  /\ Str.trim (String (ascii_of_nat 160) "7 ") = "7"%string.
Proof. vm_compute. split; reflexivity. Qed.

Lemma parseFloat_spaces (s : string) :
  Forall (fun c => isSpace c = true) (list_ascii_of_string s) ->
  Str.parseFloat s = Num.NaN.
Proof.
  intros H. apply dropWhile_nil in H. unfold Str.parseFloat. now rewrite H.
Qed.

End ValidationFacts.

(** ** What every reachable state satisfies *)

Section SoundFacts.

Import App.

(** The keys of the table of a settled fetch come from the feed. *)
Lemma fold_addPrice_is_Some (l : list TokenPrices.TokenApiResponse)
      (acc : TokenPrice) (c : string) :
  is_Some (fold_left TokenPrices.addPrice l acc !! c) ->
  is_Some (acc !! c)
  \/ exists token, token ∈ l /\ TokenPrices.currency token = c
                   /\ is_Some (TokenPrices.price token).
Proof.
  intros [p H]. apply fold_addPrice_Some in H as [H|(token & Hin & Hc & Hp)].
  - left. eauto.
  - right. exists token. rewrite Hp. eauto.
Qed.

Lemma listedPriced_fetchSettle (r : TokenPrices.FetchResult)
      (st : TokenPrices.State) :
  TokenPrices.listedPriced (TokenPrices.fetchSettle r st).
Proof.
  destruct r as [data|]; unfold TokenPrices.listedPriced; simpl.
  - unfold TokenPrices.tokensWithData, TokenPrices.pricesMap.
    rewrite map_map. simpl. split; [|split].
    + intros c H. apply in_map_iff.
      apply fold_addPrice_is_Some in H as [H|(token & Hin & Hc & _)].
      * rewrite lookup_empty in H. now destruct H.
      * exists token. split; [assumption|]. now apply list_elem_of_In.
    + intros c H Hne. apply in_map_iff in H as (token & <- & Hin).
      apply list_elem_of_In in Hin.
      pose proof Hin as Hv. apply list_elem_of_filter in Hv as [Hv _].
      unfold TokenPrices.hasPrice in Hv.
      destruct (TokenPrices.price token) as [p|] eqn:Ep; [|discriminate].
      now apply (fold_addPrice_adds _ _ token p).
    + apply fold_addPrice_proto, lookup_empty.
  - split; [|split].
    + intros c H. rewrite lookup_empty in H. now destruct H.
    + intros c [].
    + apply lookup_empty.
Qed.

(** A step that leaves the swaps in flight and the hook of the swap alone,
    keeps two different tokens, shows no new success message and sets no
    error while a swap is in flight, keeps the invariant. *)
Lemma sound_frame (app app' : State) :
  sound app -> consistent app' ->
  TokenPrices.listedPriced (store app') ->
  swap app' = swap app -> inFlight app' = inFlight app ->
  fromToken (Form.formData (form app')) <> toToken (Form.formData (form app')) ->
  (Form.showSuccess (form app') = true -> Form.showSuccess (form app) = true) ->
  (Swap.isSwapping (swap app) = true -> Form.error (form app') = ""%string) ->
  sound app'.
Proof.
  intros (_ & Hd & _ & Hv & Ht & Hs & He) Hc Hl Esw Efl Hne Hshow Herr.
  unfold sound. rewrite Esw, Efl.
  split; [assumption|]. split; [assumption|]. split; [assumption|].
  split; [assumption|]. split; [assumption|]. split; [auto|].
  intros Hsw. split; [auto|apply He, Hsw].
Qed.

Lemma sound_afterRender (before after : State) :
  sound after -> sound (afterRender before after).
Proof.
  intros H. pose proof H as (Hc & _ & Hl & _ & _ & _ & He).
  destruct (afterRender_frame before after) as (Es & Esw & Efl & Ef & Et).
  assert (Hform : Form.showSuccess (form (afterRender before after))
                  = Form.showSuccess (form after)
                  /\ Form.error (form (afterRender before after))
                     = Form.error (form after)).
  { unfold afterRender. destruct (Num.sameValue _ _); [auto|].
    destruct (rateEffect_frame (exchangeRate after) (form after))
      as (_ & _ & E1 & _ & E2).
    unfold withForm. cbn [form]. auto. }
  destruct Hform as [E1 E2].
  apply (sound_frame after); auto.
  - now apply consistent_afterRender.
  - now rewrite Es.
  - rewrite Ef, Et. apply H.
  - now rewrite E1.
  - intros Hsw. rewrite E2. now apply He.
Qed.

Lemma amount_handlers_frame (value : string) (r : Num.number) (st : Form.State) :
  (fromToken (Form.formData (Form.handleFromAmountChange value r st))
   = fromToken (Form.formData st)
   /\ toToken (Form.formData (Form.handleFromAmountChange value r st))
      = toToken (Form.formData st)
   /\ Form.showSuccess (Form.handleFromAmountChange value r st)
      = Form.showSuccess st)
  /\ (fromToken (Form.formData (Form.handleToAmountChange value r st))
      = fromToken (Form.formData st)
      /\ toToken (Form.formData (Form.handleToAmountChange value r st))
         = toToken (Form.formData st)
      /\ Form.showSuccess (Form.handleToAmountChange value r st)
         = Form.showSuccess st).
Proof.
  unfold Form.handleFromAmountChange, Form.handleToAmountChange.
  destruct (Form.rejects value); simpl; auto.
Qed.

Lemma max_clears_error (r : Num.number) (st : Form.State) :
  Form.error (Form.handleMaxAmount r st) = ""%string
  /\ fromAmount (Form.formData (Form.handleMaxAmount r st)) = "10"%string
  /\ Form.lastUpdatedField (Form.handleMaxAmount r st) = Form.from.
Proof.
  unfold Form.handleMaxAmount.
  replace (Num.toString Form.mockBalance) with "10"%string
    by (vm_compute; reflexivity).
  unfold Form.handleFromAmountChange.
  replace (Form.rejects "10") with false by reflexivity.
  cbn [Form.error Form.formData fromAmount Form.lastUpdatedField]. auto.
Qed.

Lemma offered_differs (app : State) (currency exclude : string) :
  offered app currency exclude = true -> currency <> exclude.
Proof.
  unfold offered. intros H. apply andb_prop in H as [_ H].
  apply negb_true_iff in H. now apply String.eqb_neq.
Qed.

Lemma sound_settle (env : Swap.Env) (app : State) :
  sound app -> sound (settle env app).
Proof.
  intros H. pose proof (consistent_settle env app (proj1 H)) as Hc.
  pose proof H as (Hcons & Hd & Hl & Hv & Ht & Hs & He).
  revert Hc. unfold settle.
  destruct (inFlight app) as [|p rest] eqn:E; [intros _; exact H|].
  destruct (Hv p (or_introl eq_refl)) as (Ha & Hne & Hr).
  unfold Swap.settle. destruct (Swap.fails env); intros Hc.
  - unfold sound. simpl.
    split; [assumption|]. split; [assumption|]. split; [assumption|].
    split; [intros q Hq; apply Hv; now right|].
    split; [assumption|]. split; [assumption|discriminate].
  - unfold sound. simpl.
    split; [assumption|]. split; [assumption|]. split; [assumption|].
    split; [intros q Hq; apply Hv; now right|].
    split; [|split; [eauto|discriminate]].
    intros tx [= <-]. unfold wellFounded, Swap.transactionOf. simpl.
    apply validateSwapAmount_none in Ha as (_ & _ & Hfin & Hpos & Hle).
    auto.
Qed.

Lemma sound_handleSubmit (app : State) :
  sound app -> submitDisabled app = false -> sound (handleSubmit app).
Proof.
  intros H Hgate. pose proof H as (Hcons & Hd & Hl & Hv & Ht & Hs & He).
  unfold submitDisabled in Hgate.
  apply orb_false_iff in Hgate as [Hgate Hrate].
  apply orb_false_iff in Hgate as [Hgate _].
  apply orb_false_iff in Hgate as [Hidle _].
  apply negb_false_iff in Hrate.
  pose proof (consistent_handleSubmit app Hcons Hidle) as Hc.
  pose proof (idle_of_enabled app Hcons Hidle) as Hnil.
  revert Hc. unfold handleSubmit.
  destruct (Validators.validateSwapAmount _ _) eqn:Ea.
  { intros Hc. apply (sound_frame app); auto. congruence. }
  unfold Validators.validateTokensDifferent.
  destruct (String.eqb _ _) eqn:Et.
  { intros Hc. apply (sound_frame app); auto. congruence. }
  apply String.eqb_neq in Et.
  intros Hc. unfold sound. split; [exact Hc|]. simpl. rewrite Hnil. simpl.
  split; [assumption|]. split; [assumption|].
  split; [|auto].
  intros p [<-|[]]. unfold validated. simpl. auto.
Qed.

Lemma sound_handle (ev : Event) (app : State) :
  sound app -> sound (handle ev app).
Proof.
  intros H. pose proof (consistent_handle ev app (proj1 H)) as Hc.
  pose proof H as (Hcons & Hd & Hl & Hv & Ht & Hs & He).
  destruct ev; cbn [handle] in *.
  - destruct (controlsEnabled app) eqn:G; [|assumption].
    apply controlsEnabled_idle in G.
    destruct (amount_handlers_frame value (exchangeRate app) (form app))
      as ((E1 & E2 & E3) & _).
    apply (sound_frame app); simpl; auto; congruence.
  - destruct (controlsEnabled app) eqn:G; [|assumption].
    apply controlsEnabled_idle in G.
    destruct (amount_handlers_frame value (exchangeRate app) (form app))
      as (_ & (E1 & E2 & E3)).
    apply (sound_frame app); simpl; auto; congruence.
  - destruct (formShown app && offered app _ _) eqn:G; [|assumption].
    apply andb_prop in G as [_ O]. apply offered_differs in O.
    apply (sound_frame app); simpl; auto. apply He.
  - destruct (formShown app && offered app _ _) eqn:G; [|assumption].
    apply andb_prop in G as [_ O]. apply offered_differs in O.
    apply (sound_frame app); simpl; auto. apply He.
  - destruct (controlsEnabled app) eqn:G; [|assumption].
    apply controlsEnabled_idle in G.
    apply (sound_frame app); simpl; auto; congruence.
  - destruct (formShown app); [|assumption].
    destruct (amount_handlers_frame (Num.toString Form.mockBalance)
                (exchangeRate app) (form app)) as ((E1 & E2 & E3) & _).
    destruct (max_clears_error (exchangeRate app) (form app)) as (E4 & _).
    apply (sound_frame app); cbn [withForm form store swap inFlight]; auto;
      unfold Form.handleMaxAmount in *; congruence.
  - destruct (formShown app && negb (submitDisabled app)) eqn:G; [|assumption].
    apply andb_prop in G as [_ G]. apply negb_true_iff in G.
    now apply sound_handleSubmit.
  - apply (sound_frame app); simpl; auto. apply He.
  - apply (sound_frame app); simpl; auto; [|apply He].
    apply listedPriced_fetchSettle.
  - now apply sound_settle.
  - apply (sound_frame app); simpl; auto; [discriminate|apply He].
Qed.

Lemma sound_run (trace : list Event) : sound (run trace).
Proof.
  induction trace as [|ev trace IH] using rev_ind.
  - unfold sound. split; [apply (consistent_run [])|]. simpl.
    split; [discriminate|]. split.
    + apply (listedPriced_fetchSettle TokenPrices.FetchFailed TokenPrices.initial).
    + split; [now intros ? []|]. split; [discriminate|].
      split; discriminate.
  - rewrite run_snoc. now apply sound_afterRender, sound_handle.
Qed.

End SoundFacts.

Section ReachableFacts.

Import App.

(** X5: in every state the component reaches the two selected tokens
    differ, because a selector does not offer the token of the other side;
    so the check [validateTokensDifferent] of [handleSubmit] never fails
    there. *)
Theorem X5_tokens_always_differ (trace : list Event) :
  fromToken (Form.formData (form (run trace)))
  <> toToken (Form.formData (form (run trace)))
  /\ Validators.validateTokensDifferent
       (fromToken (Form.formData (form (run trace))))
       (toToken (Form.formData (form (run trace)))) = None.
Proof.
  destruct (sound_run trace) as (_ & Hd & _). split; [assumption|].
  unfold Validators.validateTokensDifferent.
  apply String.eqb_neq in Hd. now rewrite Hd.
Qed.

(** X6: in every state the component reaches, every key of the price
    table is the currency of a listed token, and every listed token has its
    key, unless it is called [__proto__], which is never a key.  So
    whatever a selector offers passes [hasTokenPrice] and finds something
    in the table: its price, or for [__proto__] the prototype. *)
Theorem X6_offered_tokens_are_priced (trace : list Event) (c : string) :
  (is_Some (TokenPrices.prices (store (run trace)) !! c) ->
   In c (map Types.currency (TokenPrices.tokens (store (run trace)))))
  /\ (In c (map Types.currency (TokenPrices.tokens (store (run trace)))) ->
      c <> "__proto__"%string ->
      is_Some (TokenPrices.prices (store (run trace)) !! c))
  /\ TokenPrices.prices (store (run trace)) !! "__proto__"%string = None
  /\ (forall exclude : string,
        offered (run trace) c exclude = true ->
        TokenUtils.hasTokenPrice c (TokenPrices.prices (store (run trace))) = true
        /\ Obj.get (TokenPrices.prices (store (run trace))) c <> Obj.undefined).
Proof.
  destruct (sound_run trace) as (_ & _ & (Hl1 & Hl2 & Hl3) & _).
  split; [apply Hl1|]. split; [apply Hl2|]. split; [exact Hl3|].
  intros exclude H. unfold offered in H.
  apply andb_prop in H as [H _]. apply existsb_exists in H as (x & Hin & Hx).
  apply String.eqb_eq in Hx. subst x.
  unfold TokenUtils.hasTokenPrice, Obj.has, Obj.get.
  destruct (String.eqb_spec c "__proto__") as [->|Hne].
  - rewrite Hl3. split; [reflexivity|discriminate].
  - destruct (Hl2 c Hin Hne) as [p ->]. split; [reflexivity|discriminate].
Qed.

Lemma X6_offered_tokens_are_priced_witness :
  offered Scenario.entered "USDC" "ETH" = true
  /\ TokenUtils.hasTokenPrice "USDC" (TokenPrices.prices (store Scenario.entered))
     = true.
Proof.
  split; [reflexivity|].
  exact (proj1 (proj2 (proj2 (proj2
           (X6_offered_tokens_are_priced
              [Scenario.loaded Scenario.feed; ChangeFromAmount "2"] "USDC"%string)))
           "ETH"%string eq_refl)).
Defined.

(** X7: every transaction the component records comes from a submission
    that passed the validations and the gate of the submit button: its two
    tokens differ, its [fromAmount] is a finite number above zero and at
    most [Number.MAX_SAFE_INTEGER], and its exchange rate is neither zero
    nor [NaN]. *)
Theorem X7_recorded_transaction_validated
        (trace : list Event) (tx : Tx.SwapTransaction) :
  Swap.lastTransaction (swap (run trace)) = Some tx ->
  Tx.fromToken tx <> Tx.toToken tx
  /\ Num.isFinite (Tx.fromAmount tx) = true
  /\ Num.gtb (Tx.fromAmount tx) Num.zero = true
  /\ Num.leb (Tx.fromAmount tx) Num.MAX_SAFE_INTEGER = true
  /\ Num.truthy (Tx.exchangeRate tx) = true.
Proof.
  destruct (sound_run trace) as (_ & _ & _ & _ & Ht & _). apply Ht.
Qed.

Lemma X7_recorded_transaction_validated_witness :
  Swap.lastTransaction (swap (run Scenario.settledTrace))
  = Some Scenario.recorded
  /\ Num.gtb (Tx.fromAmount Scenario.recorded) Num.zero = true
  /\ Num.truthy (Tx.exchangeRate Scenario.recorded) = true.
Proof.
  split; [reflexivity|].
  pose proof (X7_recorded_transaction_validated
                Scenario.settledTrace Scenario.recorded eq_refl)
    as (_ & _ & H1 & _ & H2).
  exact (conj H1 H2).
Defined.

(** X8: whenever the success message is shown there is a transaction for
    it to display. *)
Theorem X8_success_message_has_transaction (trace : list Event) :
  Form.showSuccess (form (run trace)) = true ->
  is_Some (Swap.lastTransaction (swap (run trace))).
Proof.
  destruct (sound_run trace) as (_ & _ & _ & _ & _ & Hs & _). exact Hs.
Qed.

Lemma X8_success_message_has_transaction_witness :
  Form.showSuccess (form (run Scenario.settledTrace)) = true
  /\ is_Some (Swap.lastTransaction (swap (run Scenario.settledTrace))).
Proof.
  split; [reflexivity|].
  exact (X8_success_message_has_transaction Scenario.settledTrace eq_refl).
Defined.

(** X9: while a swap is in flight neither the error of the form nor the
    error of the hook is set, so no error is displayed next to "Processing
    Swap...". *)
Theorem X9_no_error_while_swapping (trace : list Event) :
  Swap.isSwapping (swap (run trace)) = true ->
  Form.error (form (run trace)) = ""%string
  /\ Swap.error (swap (run trace)) = None.
Proof.
  destruct (sound_run trace) as (_ & _ & _ & _ & _ & _ & He). exact He.
Qed.

Lemma X9_no_error_while_swapping_witness :
  Form.error (form Scenario.submitting) = ""%string
  /\ Swap.error (swap Scenario.submitting) = None.
Proof.
  exact (X9_no_error_while_swapping
           [Scenario.loaded Scenario.feed; ChangeFromAmount "2"; ClickSubmit]
           eq_refl).
Defined.

End ReachableFacts.

Section EventFacts.

Import App.

(** X11: the MAX button carries no [disabled] attribute: whenever the form
    is shown, also while a swap is in flight, a click on it sets the first
    amount to "10", makes the first field the last edited one and clears
    the error of the form; it starts and ends no swap. *)
Theorem X11_max_button_always_enabled (app : State) :
  formShown app = true ->
  fromAmount (Form.formData (form (dispatch ClickMax app))) = "10"%string
  /\ Form.lastUpdatedField (form (dispatch ClickMax app)) = Form.from
  /\ Form.error (form (dispatch ClickMax app)) = ""%string
  /\ swap (dispatch ClickMax app) = swap app
  /\ inFlight (dispatch ClickMax app) = inFlight app.
Proof.
  intros H. unfold dispatch. cbn [handle]. rewrite H.
  set (after := withForm (Form.handleMaxAmount (exchangeRate app) (form app)) app).
  destruct (max_clears_error (exchangeRate app) (form app)) as (E1 & E2 & E3).
  destruct (amount_handlers_frame (Num.toString Form.mockBalance)
              (exchangeRate app) (form app)) as ((T1 & T2 & _) & _).
  assert (Er : exchangeRate after = exchangeRate app)
    by (apply exchangeRate_ext; [reflexivity|exact T1|exact T2]).
  unfold afterRender. rewrite Er, sameValue_refl.
  subst after. cbn [withForm form swap inFlight]. auto.
Qed.

Lemma X11_max_button_always_enabled_witness :
  Swap.isSwapping (swap Scenario.submitting) = true
  /\ fromAmount (Form.formData (form (dispatch ClickMax Scenario.submitting)))
     = "10"%string.
Proof.
  split; [reflexivity|].
  exact (proj1 (X11_max_button_always_enabled Scenario.submitting eq_refl)).
Defined.

(** X12: when the submit button is enabled, the amount validation of
    [handleSubmit] can still fail, but only with "Please enter a valid
    number" or "Amount is too large": the gate of the button has already
    excluded an empty amount and an amount that is not above zero. *)
Theorem X12_enabled_submit_messages (app : State) (e : ValidationError) :
  submitDisabled app = false ->
  Validators.validateSwapAmount (fromAmount (Form.formData (form app)))
                                fromAmountField = Some e ->
  message e = "Please enter a valid number"%string
  \/ message e = "Amount is too large"%string.
Proof.
  unfold submitDisabled. intros Hgate.
  apply orb_false_iff in Hgate as [Hgate _].
  apply orb_false_iff in Hgate as [Hgate Hpos].
  apply orb_false_iff in Hgate as [_ Hne].
  set (amount := fromAmount (Form.formData (form app))) in *.
  unfold Validators.validateSwapAmount. rewrite Hne. simpl.
  destruct (Str.isEmpty (Str.trim amount)) eqn:Et.
  { exfalso. apply trim_empty, parseFloat_spaces in Et.
    unfold Formatters.parseNumber in Hpos. rewrite Et in Hpos. discriminate. }
  destruct (Str.amountPattern amount); simpl; [|intros [= <-]; now left].
  unfold Formatters.parseNumber in Hpos.
  destruct (Num.isNaN (Str.parseFloat amount)); [discriminate|].
  rewrite Hpos. simpl.
  destruct (Num.gtb _ _); [intros [= <-]; now right|discriminate].
Qed.

Lemma X12_enabled_submit_messages_witness :
  message {| field := fromAmountField;
             message := "Please enter a valid number" |}
  = "Please enter a valid number"%string
  \/ message {| field := fromAmountField;
                message := "Please enter a valid number" |}
     = "Amount is too large"%string.
Proof.
  exact (X12_enabled_submit_messages
           (run [Scenario.loaded Scenario.feed;
                 ChangeFromAmount "2000000000000000000"; ClickSwapButton])
           {| field := fromAmountField;
              message := "Please enter a valid number" |}
           ltac:(vm_compute; reflexivity) ltac:(vm_compute; reflexivity)).
Defined.

Lemma afterRender_typed (before after : State) :
  Form.lastUpdatedField (form (afterRender before after))
  = Form.lastUpdatedField (form after)
  /\ Form.amountOf (Form.lastUpdatedField (form after))
       (Form.formData (form (afterRender before after)))
     = Form.amountOf (Form.lastUpdatedField (form after))
         (Form.formData (form after)).
Proof.
  unfold afterRender. destruct (Num.sameValue _ _); [auto|].
  destruct (rateEffectUpdate_frame (exchangeRate after) (form after)
              (Form.formData (form after))) as (_ & _ & E).
  unfold withForm, Form.rateEffect. cbn [form Form.setFormData
    Form.lastUpdatedField Form.formData]. auto.
Qed.

(** X13: a token choice, a click on the submit button, a refresh of the
    prices and the timeout of the success message never change which field
    was edited last nor the amount typed into it, also when the rate
    changes with them and the other amount is derived anew. *)
Theorem X13_typed_amount_survives (app : State) (ev : Event) :
  noAmountEdit ev = true ->
  Form.lastUpdatedField (form (dispatch ev app))
  = Form.lastUpdatedField (form app)
  /\ Form.amountOf (Form.lastUpdatedField (form app))
       (Form.formData (form (dispatch ev app)))
     = Form.amountOf (Form.lastUpdatedField (form app))
         (Form.formData (form app)).
Proof.
  intros Hev. unfold dispatch.
  assert (H : Form.lastUpdatedField (form (handle ev app))
              = Form.lastUpdatedField (form app)
              /\ Form.amountOf (Form.lastUpdatedField (form app))
                   (Form.formData (form (handle ev app)))
                 = Form.amountOf (Form.lastUpdatedField (form app))
                     (Form.formData (form app))).
  { destruct ev; try discriminate; cbn [handle].
    - destruct (_ && _); [|auto]. simpl.
      now destruct (Form.lastUpdatedField (form app)).
    - destruct (_ && _); [|auto]. simpl.
      now destruct (Form.lastUpdatedField (form app)).
    - destruct (_ && _); [|auto]. unfold handleSubmit.
      destruct (Validators.validateSwapAmount _ _); [auto|].
      destruct (Validators.validateTokensDifferent _ _); auto.
    - auto.
    - auto.
    - auto. }
  destruct H as [H1 H2].
  destruct (afterRender_typed app (handle ev app)) as [E1 E2].
  rewrite H1 in E1, E2. rewrite E1, E2. auto.
Qed.

Lemma X13_typed_amount_survives_witness :
  Form.amountOf Form.from
    (Form.formData (form (dispatch (FetchSettled
                                      (TokenPrices.FetchOk Scenario.cheapFeed))
                                   Scenario.entered)))
  = "2"%string.
Proof.
  exact (proj2 (X13_typed_amount_survives Scenario.entered
                  (FetchSettled (TokenPrices.FetchOk Scenario.cheapFeed))
                  eq_refl)).
Defined.

Lemma rateEffect_not_positive (r : Num.number) (st : Form.State) :
  Num.gtb r Num.zero = false -> Form.rateEffect r st = st.
Proof.
  intros H. unfold Form.rateEffect, Form.rateEffectUpdate. rewrite H.
  now destruct st.
Qed.

(** X14: a refresh that fails leaves the whole form as it is, amounts
    included, while the token list and the table become empty and the
    submit button is disabled.  The rate becomes zero, unless both tokens
    are named like properties of [Object.prototype]: each then finds such a
    property in the empty table, and the rate is [NaN]. *)
Theorem X14_failed_refresh (app : State) :
  form (dispatch (FetchSettled TokenPrices.FetchFailed) app) = form app
  /\ exchangeRate (dispatch (FetchSettled TokenPrices.FetchFailed) app)
     = (if Obj.inherited (fromToken (Form.formData (form app)))
           && Obj.inherited (toToken (Form.formData (form app)))
        then Num.NaN else Num.zero)
  /\ submitDisabled (dispatch (FetchSettled TokenPrices.FetchFailed) app)
     = true
  /\ TokenPrices.tokens
       (store (dispatch (FetchSettled TokenPrices.FetchFailed) app)) = []
  /\ TokenPrices.prices
       (store (dispatch (FetchSettled TokenPrices.FetchFailed) app)) = ∅.
Proof.
  unfold dispatch. cbn [handle].
  set (after := {| form := form app;
                   store := TokenPrices.fetchSettle TokenPrices.FetchFailed
                                                    (store app);
                   swap := swap app; inFlight := inFlight app |}).
  assert (Er : exchangeRate after
               = (if Obj.inherited (fromToken (Form.formData (form app)))
                     && Obj.inherited (toToken (Form.formData (form app)))
                  then Num.NaN else Num.zero)).
  { unfold exchangeRate, Form.exchangeRate, Obj.get. simpl.
    rewrite !lookup_empty.
    destruct (Obj.inherited (fromToken _)), (Obj.inherited (toToken _));
      reflexivity. }
  assert (Hr : Num.gtb (exchangeRate after) Num.zero = false
               /\ Num.truthy (exchangeRate after) = false).
  { rewrite Er. destruct (_ && _); split; reflexivity. }
  destruct Hr as [Hr Ht].
  assert (E : afterRender app after = after).
  { unfold afterRender. destruct (Num.sameValue _ _); [reflexivity|].
    rewrite rateEffect_not_positive by assumption. reflexivity. }
  rewrite E. split; [reflexivity|]. split; [assumption|].
  split; [|split; reflexivity].
  unfold submitDisabled. rewrite Ht. simpl. apply orb_true_r.
Qed.

(** With the tokens [constructor] and [toString] chosen from an earlier
    feed, a failed refresh leaves the rate [NaN]. *)
Example failed_refresh_with_inherited_names :
  let chosen := run [Scenario.loaded Scenario.namedFeed;
                     SelectFromToken "constructor";
                     SelectToToken "toString"] in
  exchangeRate chosen = Num.ofZ 2
  /\ exchangeRate (dispatch (FetchSettled TokenPrices.FetchFailed) chosen)
     = Num.NaN.
Proof. vm_compute. split; reflexivity. Qed.

Lemma mul_zero_left (r : Num.number) :
  Num.gtb (Num.mul Num.zero r) Num.zero = false.
Proof. destruct r as [s|s| |s m e]; reflexivity. Qed.

Lemma div_zero_left (r : Num.number) :
  Num.gtb (Num.div Num.zero r) Num.zero = false.
Proof. destruct r as [s|s| |s m e]; reflexivity. Qed.

(** X15: an accepted value that parses to zero, such as the empty string,
    "0", "." or "0.00", leaves the other field empty at every rate, so
    clearing one field clears the other. *)
Theorem X15_zero_amount_clears_other_field
        (value : string) (r : Num.number) (st : Form.State) :
  Form.rejects value = false ->
  Formatters.parseNumber value = Num.zero ->
  toAmount (Form.formData (Form.handleFromAmountChange value r st)) = ""%string
  /\ fromAmount (Form.formData (Form.handleToAmountChange value r st)) = ""%string.
Proof.
  intros H Hz. unfold Form.handleFromAmountChange, Form.handleToAmountChange.
  rewrite H, Hz. cbn [Form.formData toAmount fromAmount]. unfold Form.counterpart.
  rewrite mul_zero_left. split; [reflexivity|].
  destruct (Num.gtb r Num.zero); [now rewrite div_zero_left|reflexivity].
Qed.

Lemma X15_zero_amount_clears_other_field_witness :
  toAmount (Form.formData
              (Form.handleFromAmountChange "" (Num.ofZ 3500)
                                           (form Scenario.entered)))
  = ""%string
  /\ fromAmount (Form.formData
                   (Form.handleToAmountChange "0.00" (Num.ofZ 3500)
                                              (form Scenario.entered)))
     = ""%string.
Proof.
  split.
  - exact (proj1 (X15_zero_amount_clears_other_field "" (Num.ofZ 3500)
                    (form Scenario.entered) eq_refl eq_refl)).
  - exact (proj2 (X15_zero_amount_clears_other_field "0.00" (Num.ofZ 3500)
                    (form Scenario.entered) eq_refl eq_refl)).
Defined.

(** X16: the rate effect is idempotent: run a second time at the same rate
    it changes nothing more. *)
Theorem X16_rate_effect_idempotent (r : Num.number) (st : Form.State) :
  Form.rateEffect r (Form.rateEffect r st) = Form.rateEffect r st.
Proof.
  destruct st as [[ft tt fa ta] err last shown].
  unfold Form.rateEffect, Form.rateEffectUpdate.
  cbn [Form.formData Form.lastUpdatedField Form.setFormData fromAmount toAmount].
  destruct (Num.gtb r Num.zero); [|reflexivity].
  destruct last.
  - destruct (Str.isEmpty fa) eqn:E; cbn; rewrite ?E; reflexivity.
  - destruct (Str.isEmpty ta) eqn:E; cbn; rewrite ?E; reflexivity.
Qed.

(** X17: after an accepted edit the rate effect at the rate of that edit
    changes nothing: the handlers leave the form as the effect would, so
    the effect matters only when the rate changes. *)
Theorem X17_rate_effect_after_edit
        (f : Form.Field) (value : string) (r : Num.number) (st : Form.State) :
  Form.rejects value = false ->
  Form.rateEffect r (Form.handleAmountChange f value r st)
  = Form.handleAmountChange f value r st.
Proof.
  intros H. destruct f; cbn [Form.handleAmountChange];
    unfold Form.handleFromAmountChange, Form.handleToAmountChange; rewrite H;
    unfold Form.rateEffect, Form.rateEffectUpdate;
    cbn [Form.formData Form.lastUpdatedField Form.setFormData fromAmount
         toAmount fromToken toToken Form.error Form.showSuccess];
    destruct (Num.gtb r Num.zero); try reflexivity;
    destruct (Str.isEmpty value); reflexivity.
Qed.

Lemma X17_rate_effect_after_edit_witness :
  Form.rateEffect (Num.ofZ 3500)
    (Form.handleAmountChange Form.to "100" (Num.ofZ 3500) (form Scenario.entered))
  = Form.handleAmountChange Form.to "100" (Num.ofZ 3500) (form Scenario.entered).
Proof.
  exact (X17_rate_effect_after_edit Form.to "100" (Num.ofZ 3500)
           (form Scenario.entered) eq_refl).
Defined.

End EventFacts.

(** ** Rates, the compact format and the selector *)

Section UtilityFacts.

Local Open Scope Z_scope.

(** X18: the three ways the code computes a rate agree where the hook
    gives one: the rate of the form and the rate of the token utilities are
    then the same number.  Where the hook gives none for two named
    currencies, the form uses zero.  The token utilities look at the
    presence of the two names only; where they answer and the hook does
    not, one of the two currencies has a price of its own that is zero or
    [NaN]. *)
Theorem X18_rates_agree (st : TokenPrices.State) (f t a b : string) :
  (forall r : Num.number,
      TokenPrices.getExchangeRate st f t = Some r ->
      Form.exchangeRate (TokenPrices.prices st)
        {| fromToken := f; toToken := t; fromAmount := a; toAmount := b |} = r
      /\ TokenUtils.getExchangeRate f t (TokenPrices.prices st) = Some r)
  /\ (TokenPrices.getExchangeRate st f t = None ->
      f <> ""%string -> t <> ""%string ->
      Form.exchangeRate (TokenPrices.prices st)
        {| fromToken := f; toToken := t; fromAmount := a; toAmount := b |}
      = Num.zero)
  /\ (TokenPrices.getExchangeRate st f t = None ->
      f <> ""%string -> t <> ""%string ->
      is_Some (TokenUtils.getExchangeRate f t (TokenPrices.prices st)) ->
      exists (c : string) (p : Num.number),
        (c = f \/ c = t) /\ TokenPrices.prices st !! c = Some p
        /\ Num.truthy p = false).
Proof.
  unfold TokenPrices.getExchangeRate, Form.exchangeRate,
    TokenUtils.getExchangeRate, TokenUtils.hasTokenPrice, Obj.has, Obj.get.
  cbn [fromToken toToken].
  destruct (Str.isEmpty f) eqn:If.
  { apply isEmpty_true in If. split; [discriminate|]. split; contradiction. }
  destruct (Str.isEmpty t) eqn:It.
  { apply isEmpty_true in It. split; [discriminate|]. split; contradiction. }
  cbn [orb].
  destruct (TokenPrices.prices st !! f) as [pf|] eqn:Ef;
    [destruct (Num.truthy pf) eqn:Tf|destruct (Obj.inherited f)];
    (destruct (TokenPrices.prices st !! t) as [pt|] eqn:Et;
     [destruct (Num.truthy pt) eqn:Tt|destruct (Obj.inherited t)]);
    cbn [Obj.truthy Obj.toNumber negb orb andb]; rewrite ?Tf, ?Tt;
    cbn [negb orb andb];
    (split; [intros r [= <-]; auto || discriminate|
             split; [reflexivity || discriminate|]]);
    try discriminate;
    intros _ _ _ H; try (destruct H as [? [=]]);
    try (exists f, pf; now auto); try (exists t, pt; now auto).
Qed.

Lemma X18_rates_agree_witness :
  Form.exchangeRate (TokenPrices.prices (App.store Scenario.entered))
    {| fromToken := "ETH"; toToken := "USDC";
       fromAmount := "2"; toAmount := "" |}
  = Num.ofZ 3500
  /\ TokenUtils.getExchangeRate "ETH" "USDC"
       (TokenPrices.prices (App.store Scenario.entered))
     = Some (Num.ofZ 3500).
Proof.
  exact (proj1 (X18_rates_agree (App.store Scenario.entered)
                  "ETH" "USDC" "2" "")
           (Num.ofZ 3500) ltac:(vm_compute; reflexivity)).
Defined.

(** For a name that the table only inherits, paired with a priced token,
    all three compute [NaN]: the inherited function is truthy, so it passes
    every check, and it is no number. *)
Example rates_for_inherited_name :
  let prices := TokenPrices.prices (App.store Scenario.entered) in
  TokenUtils.hasTokenPrice "toString" prices = true
  /\ TokenUtils.getExchangeRate "toString" "ETH" prices = Some Num.NaN
  /\ TokenPrices.getExchangeRate (App.store Scenario.entered) "toString" "ETH"
     = Some Num.NaN
  /\ Form.exchangeRate prices
       {| fromToken := "toString"; toToken := "ETH";
          fromAmount := ""; toAmount := "" |} = Num.NaN.
Proof. vm_compute. repeat split; reflexivity. Qed.

(** A number that is not at least 1000 is not at least a larger bound. *)
Lemma geb_thousand (value : Num.number) :
  Num.geb value (Num.ofZ 1000) = false ->
  Num.geb value (Num.ofZ 1000000) = false
  /\ Num.geb value (Num.ofZ 1000000000) = false.
Proof.
  unfold Num.geb, SFleb.
  destruct value as [s|s| |s m e]; try (destruct s; simpl; intros; auto; fail);
    [simpl; auto|].
  destruct s; [simpl; auto|].
  change (Num.ofZ 1000) with (S754_finite false 8796093022208000 (-43)).
  change (Num.ofZ 1000000) with (S754_finite false 8589934592000000 (-33)).
  change (Num.ofZ 1000000000) with (S754_finite false 8388608000000000 (-23)).
  cbn [SFcompare].
  destruct (Z.compare_spec (-43) e) as [<-|Hlt|Hgt].
  - destruct (Pos.compare_cont Eq 8796093022208000 m); try discriminate.
    intros _. simpl. auto.
  - discriminate.
  - intros _.
    assert (E1 : (-33 ?= e) = Gt) by (apply Z.compare_gt_iff; lia).
    assert (E2 : (-23 ?= e) = Gt) by (apply Z.compare_gt_iff; lia).
    rewrite E1, E2. auto.
Qed.

(** X19: [formatCompact] abbreviates nothing that is not at least 1000: a
    smaller number, a negative number of any size, zero and [NaN] are
    printed by [toFixed(2)] without a suffix. *)
Theorem X19_formatCompact_below_thousand (value : Num.number) :
  Num.geb value (Num.ofZ 1000) = false ->
  Formatters.formatCompact value = Num.toFixed value 2.
Proof.
  intros H. destruct (geb_thousand value H) as [H1 H2].
  unfold Formatters.formatCompact. now rewrite H2, H1, H.
Qed.

Lemma X19_formatCompact_below_thousand_witness :
  Formatters.formatCompact (Str.parseFloat "-5000000") = "-5000000.00"%string.
Proof.
  rewrite (X19_formatCompact_below_thousand (Str.parseFloat "-5000000") eq_refl).
  vm_compute. reflexivity.
Defined.

Lemma startsWith_refl (l : list ascii) : Str.startsWith l l = true.
Proof.
  induction l as [|c l IH]; simpl; [reflexivity|].
  now rewrite Ascii.eqb_refl.
Qed.

Lemma includes_nil (l : list ascii) : TokenSelector.includes l [] = true.
Proof. destruct l; reflexivity. Qed.

Lemma includes_refl (l : list ascii) : TokenSelector.includes l l = true.
Proof. destruct l; simpl; [reflexivity|]. now rewrite Ascii.eqb_refl, startsWith_refl. Qed.

(** X20: whatever the search term, a selector lists only tokens of the
    token list and never the excluded currency; with the empty search term
    it lists every other token; and a token other than the excluded one is
    found by its own currency in any letter case. *)
Theorem X20_selector_filter
        (tokens : list Types.Token) (exclude term : string) (token : Types.Token) :
  (token ∈ TokenSelector.filteredTokens tokens exclude term ->
   token ∈ tokens /\ Types.currency token <> exclude)
  /\ (token ∈ tokens -> Types.currency token <> exclude ->
      token ∈ TokenSelector.filteredTokens tokens exclude "")
  /\ (token ∈ tokens -> Types.currency token <> exclude ->
      TokenSelector.toLowerCase (Types.currency token)
      = TokenSelector.toLowerCase term ->
      token ∈ TokenSelector.filteredTokens tokens exclude term).
Proof.
  unfold TokenSelector.filteredTokens. split; [|split].
  - intros H. apply list_elem_of_filter in H as [H Hin].
    split; [assumption|]. apply andb_prop in H as [H _].
    apply negb_true_iff in H. now apply String.eqb_neq.
  - intros Hin Hne. apply list_elem_of_filter. split; [|assumption].
    apply String.eqb_neq in Hne. rewrite Hne. simpl. apply includes_nil.
  - intros Hin Hne E. apply list_elem_of_filter. split; [|assumption].
    apply String.eqb_neq in Hne. rewrite Hne, E. simpl. apply includes_refl.
Qed.

Lemma X20_selector_filter_witness :
  {| Types.currency := "USDC"; Types.date := None;
     Types.price := Some (Num.ofZ 1); Types.iconUrl := None |}
  ∈ TokenSelector.filteredTokens
      [ {| Types.currency := "ETH"; Types.date := None;
           Types.price := Some (Num.ofZ 3500); Types.iconUrl := None |};
        {| Types.currency := "USDC"; Types.date := None;
           Types.price := Some (Num.ofZ 1); Types.iconUrl := None |} ]
      "ETH" "usdc".
Proof.
  apply (proj2 (proj2 (X20_selector_filter _ "ETH" "usdc" _))).
  - apply list_elem_of_In. right. left. reflexivity.
  - discriminate.
  - reflexivity.
Defined.

End UtilityFacts.

(** ** Where [NaN] cannot arise *)

Section NaNFacts.

Local Open Scope Z_scope.

Lemma iter_pos_inv {A : Type} (P : A -> Prop) (f : A -> A) :
  (forall x, P x -> P (f x)) ->
  forall (n : positive) (x : A), P x -> P (SpecFloat.iter_pos f n x).
Proof.
  intros Hf. induction n as [n IH|n IH|]; intros x Hx; simpl; auto.
Qed.

Lemma shr_1_nonneg (mrs : shr_record) :
  0 <= shr_m mrs -> 0 <= shr_m (shr_1 mrs).
Proof.
  destruct mrs as [m r s]. simpl.
  destruct m as [|p|p]; [simpl; lia| |lia].
  intros _. destruct p; simpl; lia.
Qed.

Lemma shr_fexp_nonneg (m e : Z) (l : location) :
  0 <= m -> 0 <= shr_m (fst (shr_fexp Num.prec Num.emax m e l)).
Proof.
  intros H. unfold shr_fexp, shr.
  assert (H0 : 0 <= shr_m (shr_record_of_loc m l))
    by (destruct l as [|[]]; exact H).
  destruct (_ - e) as [|p|p]; cbn [fst]; [assumption| |assumption].
  now apply (iter_pos_inv (fun mrs => 0 <= shr_m mrs) shr_1 shr_1_nonneg).
Qed.

Lemma round_nearest_even_nonneg (m : Z) (l : location) :
  0 <= m -> 0 <= round_nearest_even m l.
Proof.
  intros H. destruct l as [|[]]; simpl; try lia.
  destruct (Z.even m); lia.
Qed.

(** Rounding a mantissa that is not negative never gives [NaN]. *)
Lemma binary_round_aux_not_nan (s : bool) (m e : Z) (l : location) :
  0 <= m -> Num.isNaN (binary_round_aux Num.prec Num.emax s m e l) = false.
Proof.
  intros H. unfold binary_round_aux.
  pose proof (shr_fexp_nonneg m e l H) as H1.
  destruct (shr_fexp Num.prec Num.emax m e l) as [mrs1 e1]. cbn [fst] in H1.
  pose proof (shr_fexp_nonneg
                (round_nearest_even (shr_m mrs1) (loc_of_shr_record mrs1))
                e1 loc_Exact
                (round_nearest_even_nonneg _ _ H1)) as H2.
  destruct (shr_fexp _ _ _ _ _) as [mrs2 e2]. cbn [fst] in H2.
  destruct (shr_m mrs2) as [|p|p]; [reflexivity| |lia].
  destruct (e2 <=? _); reflexivity.
Qed.

Lemma binary_normalize_not_nan (z : Z) (s : bool) :
  Num.isNaN (binary_normalize Num.prec Num.emax z 0 s) = false.
Proof.
  destruct z as [|p|p]; simpl; [reflexivity| |];
    unfold binary_round; destruct (shl_align _ _ _);
    apply binary_round_aux_not_nan; lia.
Qed.

Lemma div_core_nonneg (m1 m2 : positive) (e1 e2 : Z) :
  0 <= fst (fst (SFdiv_core_binary Num.prec Num.emax (Zpos m1) e1 (Zpos m2) e2)).
Proof.
  unfold SFdiv_core_binary.
  set (m' := match _ - _ - _ with
             | Z0 => Zpos m1
             | Zpos _ => Z.shiftl (Zpos m1) _
             | Zneg _ => 0
             end).
  assert (Hm : 0 <= m').
  { subst m'. destruct (_ - _ - _); [lia| |lia].
    apply Z.shiftl_nonneg. lia. }
  pose proof (Z.div_pos m' (Zpos m2) Hm ltac:(lia)) as Hq.
  unfold Z.div in Hq. destruct (Z.div_eucl m' (Zpos m2)) as [q r].
  exact Hq.
Qed.

(** A quotient or a product of two finite numbers other than zero is never
    [NaN]. *)
Lemma div_finite_not_nan (sx sy : bool) (mx my : positive) (ex ey : Z) :
  Num.isNaN (Num.div (S754_finite sx mx ex) (S754_finite sy my ey)) = false.
Proof.
  unfold Num.div, SFdiv.
  pose proof (div_core_nonneg mx my ex ey) as H.
  destruct (SFdiv_core_binary _ _ _ _ _ _) as [[mz ez] lz]. cbn [fst] in H.
  now apply binary_round_aux_not_nan.
Qed.

Lemma mul_finite_not_nan (sx sy : bool) (mx my : positive) (ex ey : Z) :
  Num.isNaN (Num.mul (S754_finite sx mx ex) (S754_finite sy my ey)) = false.
Proof. unfold Num.mul, SFmul. apply binary_round_aux_not_nan. lia. Qed.

Lemma floor_not_nan (x : Num.number) :
  Num.isNaN x = false -> Num.isNaN (Num.floor x) = false.
Proof.
  destruct x as [s|s| |s m e]; unfold Num.floor; auto.
  intros _. destruct (0 <=? e); [reflexivity|].
  destruct s; apply binary_normalize_not_nan.
Qed.

Lemma div_nan (x y : Num.number) :
  Num.isNaN x = true \/ Num.isNaN y = true -> Num.isNaN (Num.div x y) = true.
Proof.
  destruct x as [sx|sx| |sx mx ex], y as [sy|sy| |sy my ey]; simpl;
    intros [H|H]; try discriminate; reflexivity.
Qed.

(** X21: when every price of the table is finite, the rate of the form is
    [NaN] only through a name that the table inherits from
    [Object.prototype].  With two tokens that find a price or nothing, the
    rate is not [NaN]; with a token that finds an inherited property and
    another that finds anything truthy, it is.  When no price has its sign
    bit set, neither has the rate. *)
Theorem X21_rate_not_nan (prices : TokenPrice) (fd : SwapFormData) :
  ((forall c p, prices !! c = Some p -> Num.isFinite p = true) ->
   Obj.get prices (fromToken fd) <> Obj.object ->
   Obj.get prices (toToken fd) <> Obj.object ->
   Num.isNaN (Form.exchangeRate prices fd) = false)
  /\ (Obj.get prices (fromToken fd) = Obj.object
       \/ Obj.get prices (toToken fd) = Obj.object ->
      Obj.truthy (Obj.get prices (fromToken fd)) = true ->
      Obj.truthy (Obj.get prices (toToken fd)) = true ->
      Num.isNaN (Form.exchangeRate prices fd) = true)
  /\ ((forall c p, prices !! c = Some p -> Num.signClear p) ->
      Num.signClear (Form.exchangeRate prices fd)).
Proof.
  unfold Form.exchangeRate, Obj.get. split; [|split].
  - intros H.
    destruct (prices !! fromToken fd) as [pf|] eqn:Ef.
    2:{ destruct (Obj.inherited (fromToken fd)); [now intros []|reflexivity]. }
    destruct (prices !! toToken fd) as [pt|] eqn:Et.
    2:{ destruct (Obj.inherited (toToken fd)); [now intros _ []|].
        intros _ _. cbn [Obj.truthy]. now rewrite andb_false_r. }
    intros _ _. pose proof (H _ _ Ef) as Hf. pose proof (H _ _ Et) as Ht.
    cbn [Obj.truthy Obj.toNumber].
    destruct pf as [s|s| |s m e]; try discriminate; try reflexivity.
    destruct pt as [s'|s'| |s' m' e']; try discriminate; try reflexivity.
    cbn [Num.truthy andb]. apply div_finite_not_nan.
  - intros Hobj Hf Ht. rewrite Hf, Ht. cbn [andb]. apply div_nan.
    destruct Hobj as [E|E].
    + left. destruct (prices !! fromToken fd); [discriminate|].
      destruct (Obj.inherited (fromToken fd)); [reflexivity|discriminate].
    + right. destruct (prices !! toToken fd); [discriminate|].
      destruct (Obj.inherited (toToken fd)); [reflexivity|discriminate].
  - intros H.
    destruct (_ && _); [|reflexivity].
    apply div_clear.
    + destruct (prices !! fromToken fd) as [pf|] eqn:Ef; [now apply (H _ _ Ef)|].
      now destruct (Obj.inherited (fromToken fd)).
    + destruct (prices !! toToken fd) as [pt|] eqn:Et; [now apply (H _ _ Et)|].
      now destruct (Obj.inherited (toToken fd)).
Qed.

Lemma X21_rate_not_nan_witness :
  Num.isNaN (Form.exchangeRate
               (<["ETH"%string := Num.ofZ 3500]> {["USDC"%string := Num.ofZ 1]})
               {| fromToken := "ETH"; toToken := "USDC";
                  fromAmount := "2"; toAmount := "" |}) = false
  /\ Num.isNaN (Form.exchangeRate
                  (<["ETH"%string := Num.ofZ 3500]> {["USDC"%string := Num.ofZ 1]})
                  {| fromToken := "constructor"; toToken := "USDC";
                     fromAmount := "2"; toAmount := "" |}) = true.
Proof.
  split.
  - apply (proj1 (X21_rate_not_nan _ _)).
    + intros c p H.
      apply lookup_insert_Some in H as [[_ <-]|[_ H]]; [reflexivity|].
      apply lookup_singleton_Some in H as [_ <-]. reflexivity.
    + vm_compute. discriminate.
    + vm_compute. discriminate.
  - apply (proj1 (proj2 (X21_rate_not_nan _ _))).
    + left. vm_compute. reflexivity.
    + vm_compute. reflexivity.
    + vm_compute. reflexivity.
Defined.

(** X22: for a converted value above zero, the number that
    [truncateDecimals] renders is never [NaN] and never negative; the other
    field can show neither "NaN" nor a minus sign. *)
Theorem X22_truncated_not_nan (converted : Num.number) :
  Num.gtb converted Num.zero = true ->
  Num.isNaN (Formatters.truncated converted 6) = false
  /\ Num.signClear (Formatters.truncated converted 6).
Proof.
  intros H. split; [|now apply truncated_clear].
  unfold Formatters.truncated.
  change (Formatters.multiplier 6)
    with (S754_finite false 8589934592000000 (-33)).
  assert (H1 : Num.isNaN (Num.mul converted
                            (S754_finite false 8589934592000000 (-33))) = false).
  { destruct converted as [s|s| |s m e]; try discriminate; try reflexivity.
    apply mul_finite_not_nan. }
  apply floor_not_nan in H1.
  destruct (Num.floor _) as [s|s| |s m e]; try discriminate; try reflexivity.
  apply div_finite_not_nan.
Qed.

Lemma X22_truncated_not_nan_witness :
  Num.isNaN (Formatters.truncated (Num.ofZ 7000) 6) = false.
Proof.
  exact (proj1 (X22_truncated_not_nan (Num.ofZ 7000) eq_refl)).
Defined.

End NaNFacts.

(** ** The end of a swap and the loading screen *)

Section SettleFacts.

Import App.


(** X24: while the prices are loading the component shows the loading
    screen only: no control of the form does anything, the MAX button
    included. *)
Theorem X24_loading_screen_blocks_controls (app : State) (ev : Event) :
  TokenPrices.loading (store app) = true ->
  fromControl ev = true ->
  dispatch ev app = app.
Proof.
  intros H Hev. unfold dispatch.
  assert (G : formShown app = false) by (unfold formShown; now rewrite H).
  assert (G' : controlsEnabled app = false)
    by (unfold controlsEnabled; now rewrite G).
  destruct ev; try discriminate; cbn [handle];
    rewrite ?G', ?G; cbn [andb]; apply afterRender_same.
Qed.

Lemma X24_loading_screen_blocks_controls_witness :
  dispatch ClickMax (dispatch FetchStarted Scenario.entered)
  = dispatch FetchStarted Scenario.entered.
Proof.
  exact (X24_loading_screen_blocks_controls
           (dispatch FetchStarted Scenario.entered) ClickMax eq_refl eq_refl).
Defined.

End SettleFacts.
